(** * Type checking of invertible protocols (lib/Sema/TypeCheckInvertible.cpp)

    A shallow embedding of the conformance derivation, the storage visitor,
    the Copyable conformance checker and its containment fix-its, with the
    properties the specification states about them.

    Conventions.
    - Every function of the source that writes to the AST context, to the
      diagnostic engine or to a declaration is a computation in the monad
      [M]: it takes the analysis state and either returns a value and a new
      state, or stops in a fatal error ([assert], [llvm_unreachable]) with the
      state reached so far. Assertions are taken as enabled.
    - Pointers to declarations are natural-number identities; a declaration
      is a record of what the source reads from it, and what the source
      writes to it (extensions, registered conformances) lives in the state.
    - Types, the generic-signature builder and the conformance arena are
      declared in headers outside this file: they are the operations of the
      class [ASTServices], and theorems hold for every instance of it. *)

From Stdlib Require Import List String Bool Arith Lia.
Import ListNotations.
Local Open Scope string_scope.
Local Open Scope list_scope.

Set Implicit Arguments.

(** ** Source locations and identities *)

(** [SourceLoc]: [None] is the invalid location [SourceLoc()]. *)
Definition SourceLoc := option nat.

Definition isValid (loc : SourceLoc) : bool :=
  match loc with Some _ => true | None => false end.

Definition DeclID := nat.
Definition ModuleID := nat.

(** ** Known protocols *)

Inductive KnownProtocolKind := Copyable | Sendable | Equatable | Hashable.

Inductive InvertibleProtocolKind := IP_Copyable.

Definition KnownProtocolKind_eqb (a b : KnownProtocolKind) : bool :=
  match a, b with
  | Copyable, Copyable | Sendable, Sendable
  | Equatable, Equatable | Hashable, Hashable => true
  | _, _ => false
  end.

(** Modelled from the spec: [getInvertibleProtocolKind] is declared outside
    this file; the duplication capability is the one invertible protocol the
    decision table knows. *)
Definition getInvertibleProtocolKind (kp : KnownProtocolKind)
  : option InvertibleProtocolKind :=
  match kp with
  | Copyable => Some IP_Copyable
  | _ => None
  end.

Definition getProtocolName (kp : KnownProtocolKind) : string :=
  match kp with
  | Copyable => "Copyable"
  | Sendable => "Sendable"
  | Equatable => "Equatable"
  | Hashable => "Hashable"
  end.

(** ** Markings (swift/AST/InverseMarking.h) *)

Module InverseMarking.
Module Kind.
Inductive t := None | Inferred | Explicit.
Definition eqb (a b : t) : bool :=
  match a, b with
  | None, None | Inferred, Inferred | Explicit, Explicit => true
  | _, _ => false
  end.
End Kind.
Record Mark := { getKind : Kind.t; getLoc : SourceLoc }.
End InverseMarking.

Record NoncopyableMarking := {
  getPositive : InverseMarking.Mark;
  getInverse : InverseMarking.Mark
}.

(** ** Declaration contexts *)

Inductive DeclContext :=
| DC_Nominal (d : DeclID)
| DC_Extension (d : DeclID)
| DC_FileUnit (f : nat)
| DC_Module (m : ModuleID).

(** [dyn_cast<FileUnit>] on a module-scope context. *)
Definition dyn_cast_FileUnit (dc : DeclContext) : option nat :=
  match dc with
  | DC_FileUnit f => Some f
  | _ => None
  end.

Record ProtocolDecl := {
  protoID : DeclID;
  protoKnownKind : option KnownProtocolKind;
  protoParentModule : ModuleID
}.

Definition isSpecificProtocol (p : ProtocolDecl) (kp : KnownProtocolKind) : bool :=
  match protoKnownKind p with
  | Some k => KnownProtocolKind_eqb k kp
  | None => false
  end.

Inductive ProtocolConformanceState := Complete | Incomplete | Checking | Error.
Inductive ConformanceEntryKind := Inherited | Explicit | Synthesized | Implied.
Inductive RequirementKind := Conformance | Superclass | SameType | Layout.

(** ** Declarations, parameterised by the representation of types *)

Section Decls.
Variable Ty : Type.

Record Requirement := {
  reqKind : RequirementKind;
  reqFirst : Ty;
  reqSecond : Ty
}.

Record GenericSignature := {
  getGenericParams : list Ty;
  getRequirements : list Requirement
}.

Record VarDecl := {
  varName : string;
  varLoc : SourceLoc;
  varInterfaceType : Ty
}.

(** [getArgumentInterfaceType] is null when the element has no payload. *)
Record EnumElementDecl := {
  elemName : string;
  elemLoc : SourceLoc;
  getArgumentInterfaceType : option Ty
}.

Definition hasAssociatedValues (e : EnumElementDecl) : bool :=
  match getArgumentInterfaceType e with Some _ => true | None => false end.

Record EnumCaseDecl := { getElements : list EnumElementDecl }.

(** The closed set of nominal declaration kinds, with their storage. *)
Inductive NominalKind :=
| StructDecl (storedProperties : list VarDecl)
| ClassDecl (storedProperties : list VarDecl)
| EnumDecl (allCases : list EnumCaseDecl)
| ProtocolDeclKind
| BuiltinTupleDecl.

Record InheritedEntry := { inheritedType : Ty; inheritedEndLoc : SourceLoc }.

Record NominalTypeDecl := {
  nominalID : DeclID;
  nominalKind : NominalKind;
  nominalLoc : SourceLoc;
  getInherited : list InheritedEntry;
  getBracesStart : SourceLoc;
  getParentModule : ModuleID;
  getNoncopyableMarking : NoncopyableMarking;
  getGenericSignature : GenericSignature;
  getDeclContext : DeclContext;
  getModuleScopeContext : DeclContext;
  getDeclaredInterfaceType : Ty
}.

Definition isa_StructDecl (n : NominalTypeDecl) : bool :=
  match nominalKind n with StructDecl _ => true | _ => false end.
Definition isa_ClassDecl (n : NominalTypeDecl) : bool :=
  match nominalKind n with ClassDecl _ => true | _ => false end.
Definition isa_ProtocolDecl (n : NominalTypeDecl) : bool :=
  match nominalKind n with ProtocolDeclKind => true | _ => false end.
Definition isa_BuiltinTupleDecl (n : NominalTypeDecl) : bool :=
  match nominalKind n with BuiltinTupleDecl => true | _ => false end.

Definition getStoredProperties (n : NominalTypeDecl) : list VarDecl :=
  match nominalKind n with
  | StructDecl ps | ClassDecl ps => ps
  | _ => []
  end.

(** [getInherited().getEndLoc()]: the end of the last entry. *)
Definition getEndLoc (inh : list InheritedEntry) : SourceLoc :=
  match rev inh with
  | e :: _ => inheritedEndLoc e
  | [] => None
  end.

(** A storage member as the diagnostics see it ([ValueDecl *]). *)
Inductive ValueDecl :=
| VD_Var (v : VarDecl)
| VD_EnumElement (e : EnumElementDecl).

Definition valueName (d : ValueDecl) : string :=
  match d with VD_Var v => varName v | VD_EnumElement e => elemName e end.
Definition valueLoc (d : ValueDecl) : SourceLoc :=
  match d with VD_Var v => varLoc v | VD_EnumElement e => elemLoc e end.

Record GenericTypeParamDecl := {
  gpLoc : SourceLoc;
  getModuleContext : ModuleID
}.
Record GenericTypeParamType := { getDecl : option GenericTypeParamDecl }.
Record ArchetypeType := { getInterfaceType : Ty }.

(** The implicit extension that hosts a conditional conformance. *)
Record ExtensionDecl := {
  extID : DeclID;
  extLoc : SourceLoc;
  extInherited : list Ty;
  extParent : DeclContext;
  isImplicit : bool;
  extGenericSignature : option GenericSignature;
  getExtendedNominal : option DeclID
}.

Record NormalProtocolConformance := {
  confAddr : nat;
  confType : Ty;
  confProtocol : ProtocolDecl;
  confLoc : SourceLoc;
  confDeclContext : DeclContext;
  confState : ProtocolConformanceState;
  confIsUnchecked : bool;
  confSourceKind : ConformanceEntryKind;
  confImplying : option nat
}.

(** ** Diagnostics *)

Inductive FixIt :=
| fixItInsert (loc : SourceLoc) (text : string)
| fixItInsertAfter (loc : SourceLoc) (text : string).

Inductive Diag :=
| add_inverse (nominal : DeclID) (protoName : string)
| note_inverse_preventing_conformance (ty : Ty) (protoName : string)
| note_inverse_preventing_conformance_implicit
    (nominal : DeclID) (protoName : string)
| note_inverse_preventing_conformance_explicit
    (nominal : DeclID) (protoName : string)
| noncopyable_type_member_in_copyable
    (ty : Ty) (isEnum : bool) (member : string) (nominal : DeclID)
| noncopyable_but_copyable (nominal : DeclID).

Record Diagnostic := {
  diagLoc : SourceLoc;
  diagID : Diag;
  diagFixIts : list FixIt
}.
End Decls.

Arguments ProtocolDeclKind {Ty}.
Arguments BuiltinTupleDecl {Ty}.
Arguments add_inverse {Ty}.
Arguments note_inverse_preventing_conformance_implicit {Ty}.
Arguments note_inverse_preventing_conformance_explicit {Ty}.
Arguments noncopyable_but_copyable {Ty}.

(** ** Services of the AST context that are declared outside this file

    Types ([swift::Type] and its queries), the generic-signature builder and
    the arena in which [ASTContext::getNormalConformance] finds or allocates a
    conformance. [getProtocol] is total: the source dereferences its result
    without a null check in the derivation. *)

Class ASTServices (Ty : Type) := {
  (* queries on types *)
  hasError : Ty -> bool;
  getRValueType : Ty -> Ty;
  getReferenceStorageReferent : Ty -> Ty;
  mapTypeIntoContext : DeclContext -> Ty -> Ty;
  isNoncopyable : Ty -> DeclContext -> bool;
  getAs_ArchetypeType : Ty -> option (ArchetypeType Ty);
  getAs_GenericTypeParamType : Ty -> option GenericTypeParamType;
  getAnyNominal : Ty -> option (NominalTypeDecl Ty);
  (* the context *)
  getProtocol : KnownProtocolKind -> ProtocolDecl;
  protoDeclaredInterfaceType : ProtocolDecl -> Ty;
  buildGenericSignature :
    GenericSignature Ty -> list Ty -> list (Requirement Ty) -> GenericSignature Ty;
  ConformanceArena : Type;
  getNormalConformance :
    ConformanceArena -> Ty -> ProtocolDecl -> SourceLoc -> DeclContext ->
    ProtocolConformanceState -> bool ->
    NormalProtocolConformance Ty * ConformanceArena
}.

(** ** The analysis state and the monad of the checker *)

Inductive Outcome (St A : Type) :=
| Returned (a : A) (s : St)
| Fatal (msg : string) (s : St).

Arguments Returned {St A}.
Arguments Fatal {St A}.

Definition M (St A : Type) := St -> Outcome St A.

Definition ret {St A} (a : A) : M St A := fun s => Returned a s.

Definition bind {St A B} (c : M St A) (k : A -> M St B) : M St B :=
  fun s =>
    match c s with
    | Returned a s' => k a s'
    | Fatal msg s' => Fatal msg s'
    end.

Definition fatal {St A} (msg : string) : M St A := fun s => Fatal msg s.

Definition assert {St} (cond : bool) (msg : string) : M St unit :=
  if cond then ret tt else fatal msg.

Definition llvm_unreachable {St A} (msg : string) : M St A := fatal msg.

Definition modify {St} (f : St -> St) : M St unit := fun s => Returned tt (f s).

Declare Scope sema_scope.
Delimit Scope sema_scope with sema.
Notation "x <- c ;; k" := (bind c (fun x => k))
  (at level 100, c at next level, right associativity) : sema_scope.
Notation "c ;; k" := (bind c (fun _ => k))
  (at level 100, right associativity) : sema_scope.
Local Open Scope sema_scope.

Section Sema.
Context {Ty : Type} {AST : ASTServices Ty}.

(** What the analysis writes: the diagnostics engine, the conformance
    arena and the declaration allocator of the context, the extensions and
    the conformances added to nominals (keyed by the nominal), the
    top-level declarations of synthesized files (keyed by the file) and the
    request evaluator's cache of extended types. Lists grow at the end. *)
Record ASTState := {
  Diags : list (Diagnostic Ty);
  Arena : ConformanceArena;
  NextDeclID : DeclID;
  Extensions : list (DeclID * ExtensionDecl Ty);
  Conformances : list (DeclID * (NormalProtocolConformance Ty * bool));
  TopLevelDecls : list (nat * ExtensionDecl Ty);
  ExtendedTypeCache : list (DeclID * Ty)
}.

Definition Sema := M ASTState.

(** [ctx.Diags.diagnose(loc, id, args...)] with its fix-its. *)
Definition diagnose (loc : SourceLoc) (id : Diag Ty) (fixits : list FixIt)
  : Sema unit :=
  modify (fun s =>
    {| Diags := Diags s ++ [ {| diagLoc := loc; diagID := id; diagFixIts := fixits |} ];
       Arena := Arena s; NextDeclID := NextDeclID s;
       Extensions := Extensions s; Conformances := Conformances s;
       TopLevelDecls := TopLevelDecls s;
       ExtendedTypeCache := ExtendedTypeCache s |}).

(** [ctx.getNormalConformance(...)] on the arena of the state. *)
Definition ctx_getNormalConformance (ty : Ty) (proto : ProtocolDecl)
    (loc : SourceLoc) (dc : DeclContext) (st : ProtocolConformanceState)
    (isUnchecked : bool) : Sema (NormalProtocolConformance Ty) :=
  fun s =>
    let (c, a) := getNormalConformance (Arena s) ty proto loc dc st isUnchecked in
    Returned c
      {| Diags := Diags s; Arena := a; NextDeclID := NextDeclID s;
         Extensions := Extensions s; Conformances := Conformances s;
         TopLevelDecls := TopLevelDecls s;
         ExtendedTypeCache := ExtendedTypeCache s |}.

Definition setSourceKindAndImplyingConformance
    (c : NormalProtocolConformance Ty) (k : ConformanceEntryKind)
    (implying : option nat) : NormalProtocolConformance Ty :=
  {| confAddr := confAddr c; confType := confType c;
     confProtocol := confProtocol c; confLoc := confLoc c;
     confDeclContext := confDeclContext c; confState := confState c;
     confIsUnchecked := confIsUnchecked c;
     confSourceKind := k; confImplying := implying |}.

(** [nominal->registerProtocolConformance(conformance, synthesized)]. *)
Definition registerProtocolConformance (nominal : NominalTypeDecl Ty)
    (c : NormalProtocolConformance Ty) (synthesized : bool) : Sema unit :=
  modify (fun s =>
    {| Diags := Diags s; Arena := Arena s; NextDeclID := NextDeclID s;
       Extensions := Extensions s;
       Conformances := Conformances s ++ [(nominalID nominal, (c, synthesized))];
       TopLevelDecls := TopLevelDecls s;
       ExtendedTypeCache := ExtendedTypeCache s |}).

(** [ExtensionDecl::create(ctx, loc, nullptr, inherited, dc, nullptr)]:
    a new declaration, whose identity no earlier declaration has. *)
Definition ExtensionDecl_create (loc : SourceLoc) (inherited : list Ty)
    (dc : DeclContext) : Sema (ExtensionDecl Ty) :=
  fun s =>
    Returned
      {| extID := NextDeclID s; extLoc := loc; extInherited := inherited;
         extParent := dc; isImplicit := false;
         extGenericSignature := None; getExtendedNominal := None |}
      {| Diags := Diags s; Arena := Arena s; NextDeclID := S (NextDeclID s);
         Extensions := Extensions s; Conformances := Conformances s;
         TopLevelDecls := TopLevelDecls s;
         ExtendedTypeCache := ExtendedTypeCache s |}.

Definition setImplicit (e : ExtensionDecl Ty) : ExtensionDecl Ty :=
  {| extID := extID e; extLoc := extLoc e; extInherited := extInherited e;
     extParent := extParent e; isImplicit := true;
     extGenericSignature := extGenericSignature e;
     getExtendedNominal := getExtendedNominal e |}.

Definition setGenericSignature (e : ExtensionDecl Ty) (sig : GenericSignature Ty)
  : ExtensionDecl Ty :=
  {| extID := extID e; extLoc := extLoc e; extInherited := extInherited e;
     extParent := extParent e; isImplicit := isImplicit e;
     extGenericSignature := Some sig;
     getExtendedNominal := getExtendedNominal e |}.

Definition setExtendedNominal (e : ExtensionDecl Ty) (nominal : NominalTypeDecl Ty)
  : ExtensionDecl Ty :=
  {| extID := extID e; extLoc := extLoc e; extInherited := extInherited e;
     extParent := extParent e; isImplicit := isImplicit e;
     extGenericSignature := extGenericSignature e;
     getExtendedNominal := Some (nominalID nominal) |}.

(** [evaluator.cacheOutput(ExtendedTypeRequest{ext}, type)]. *)
Definition cacheOutput_ExtendedTypeRequest (e : ExtensionDecl Ty) (ty : Ty)
  : Sema unit :=
  modify (fun s =>
    {| Diags := Diags s; Arena := Arena s; NextDeclID := NextDeclID s;
       Extensions := Extensions s; Conformances := Conformances s;
       TopLevelDecls := TopLevelDecls s;
       ExtendedTypeCache := ExtendedTypeCache s ++ [(extID e, ty)] |}).

(** [nominal->addExtension(ext)]. *)
Definition addExtension (nominal : NominalTypeDecl Ty) (e : ExtensionDecl Ty)
  : Sema unit :=
  modify (fun s =>
    {| Diags := Diags s; Arena := Arena s; NextDeclID := NextDeclID s;
       Extensions := Extensions s ++ [(nominalID nominal, e)];
       Conformances := Conformances s;
       TopLevelDecls := TopLevelDecls s;
       ExtendedTypeCache := ExtendedTypeCache s |}).

(** [file->getOrCreateSynthesizedFile().addTopLevelDecl(ext)]. *)
Definition addTopLevelDecl (file : nat) (e : ExtensionDecl Ty) : Sema unit :=
  modify (fun s =>
    {| Diags := Diags s; Arena := Arena s; NextDeclID := NextDeclID s;
       Extensions := Extensions s; Conformances := Conformances s;
       TopLevelDecls := TopLevelDecls s ++ [(file, e)];
       ExtendedTypeCache := ExtendedTypeCache s |}).

(** ** Conformance derivation *)

(** The lambda [generateConformance] of [deriveConformanceForInvertible]. *)
Definition generateConformance (nominal : NominalTypeDecl Ty)
    (proto : ProtocolDecl) (conformanceDC : DeclContext)
  : Sema (NormalProtocolConformance Ty) :=
  c <- ctx_getNormalConformance (getDeclaredInterfaceType nominal) proto
         (nominalLoc nominal) conformanceDC Complete false ;;
  let conformance := setSourceKindAndImplyingConformance c Synthesized None in
  registerProtocolConformance nominal conformance true ;;
  ret conformance.

(** The requirements [T_1 : P, ..., T_n : P] built by the loop over the
    generic parameters. *)
Definition conformanceRequirements (params : list Ty) (protoTy : Ty)
  : list (Requirement Ty) :=
  map (fun param =>
         {| reqKind := Conformance; reqFirst := param; reqSecond := protoTy |})
      params.

(** The lambda [generateConditionalConformance]. *)
Definition generateConditionalConformance (nominal : NominalTypeDecl Ty)
    (proto : ProtocolDecl) : Sema (NormalProtocolConformance Ty) :=
  let protoTy := protoDeclaredInterfaceType proto in
  let dc := getDeclContext nominal in
  let inherited := [protoTy] in
  ext0 <- ExtensionDecl_create None inherited dc ;;
  let ext1 := setImplicit ext0 in
  let genericSig := getGenericSignature nominal in
  let params := getGenericParams genericSig in
  let reqs := conformanceRequirements params protoTy in
  let genericSig' := buildGenericSignature genericSig [] reqs in
  let ext2 := setGenericSignature ext1 genericSig' in
  cacheOutput_ExtendedTypeRequest ext2 (getDeclaredInterfaceType nominal) ;;
  let ext := setExtendedNominal ext2 nominal in
  addExtension nominal ext ;;
  match dyn_cast_FileUnit (getModuleScopeContext nominal) with
  | Some file => addTopLevelDecl file ext
  | None => ret tt
  end ;;
  generateConformance nominal proto (DC_Extension (extID ext)).

Definition deriveConformanceForInvertible (nominal : NominalTypeDecl Ty)
    (kp : KnownProtocolKind) : Sema (option (NormalProtocolConformance Ty)) :=
  let proto := getProtocol kp in
  match getInvertibleProtocolKind kp with
  | None => llvm_unreachable "not an invertible protocol"
  | Some IP_Copyable =>
      let marking := getNoncopyableMarking nominal in
      if InverseMarking.Kind.eqb
           (InverseMarking.getKind (getPositive marking))
           InverseMarking.Kind.Explicit
      then
        let inverse := getInverse marking in
        (if InverseMarking.Kind.eqb (InverseMarking.getKind inverse)
              InverseMarking.Kind.Explicit
         then diagnose (InverseMarking.getLoc inverse)
                       (noncopyable_but_copyable (nominalID nominal)) []
         else ret tt) ;;
        c <- generateConformance nominal proto (DC_Nominal (nominalID nominal)) ;;
        ret (Some c)
      else
        assert (InverseMarking.Kind.eqb
                  (InverseMarking.getKind (getPositive marking))
                  InverseMarking.Kind.None)
               "marking.getPositive().getKind() == InverseMarking::Kind::None" ;;
        match InverseMarking.getKind (getInverse marking) with
        | InverseMarking.Kind.Explicit => ret None
        | InverseMarking.Kind.Inferred =>
            c <- generateConditionalConformance nominal proto ;;
            ret (Some c)
        | InverseMarking.Kind.None =>
            c <- generateConformance nominal proto (DC_Nominal (nominalID nominal)) ;;
            ret (Some c)
        end
  end.

(** ** Containment fix-its *)

(** [addConformanceFixIt]: the fix-it attached to the diagnostic. *)
Definition addConformanceFixIt (nominal : NominalTypeDecl Ty)
    (proto : KnownProtocolKind) (inverse : bool) : FixIt :=
  match getInherited nominal with
  | [] =>
      let fixItLoc := getBracesStart nominal in
      let text := (": " ++ (if inverse then "~" else "") ++ getProtocolName proto)%string in
      fixItInsert fixItLoc text
  | _ :: _ =>
      let fixItLoc := getEndLoc (getInherited nominal) in
      let text := (", " ++ (if inverse then "~" else "") ++ getProtocolName proto)%string in
      fixItInsertAfter fixItLoc text
  end.

Definition tryEmitContainmentFixits (enclosingNom : NominalTypeDecl Ty)
    (nonConformingTy : Ty) (kp : KnownProtocolKind) : Sema unit :=
  let module := getParentModule enclosingNom in
  diagnose (nominalLoc enclosingNom)
    (add_inverse (nominalID enclosingNom) (getProtocolName kp))
    [addConformanceFixIt enclosingNom kp true] ;;
  match getAs_ArchetypeType nonConformingTy with
  | Some genericArchetype =>
      let interfaceType := getInterfaceType genericArchetype in
      match getAs_GenericTypeParamType interfaceType with
      | Some genericParamType =>
          match getDecl genericParamType with
          | Some genericParamTypeDecl =>
              if Nat.eqb (getModuleContext genericParamTypeDecl) module
              then diagnose (gpLoc genericParamTypeDecl)
                     (note_inverse_preventing_conformance
                        nonConformingTy (getProtocolName kp)) []
              else ret tt
          | None => ret tt
          end
      | None => ret tt
      end
  | None =>
      if KnownProtocolKind_eqb kp Copyable then
        match getAnyNominal nonConformingTy with
        | Some nominal =>
            if isValid (nominalLoc nominal) then
              let inverse := getInverse (getNoncopyableMarking nominal) in
              let loc := InverseMarking.getLoc inverse in
              match InverseMarking.getKind inverse with
              | InverseMarking.Kind.None =>
                  assert false "how did it become noncopyable then?"
              | InverseMarking.Kind.Inferred =>
                  assert (isValid loc) "loc" ;;
                  diagnose loc
                    (note_inverse_preventing_conformance_implicit
                       (nominalID nominal) (getProtocolName kp)) []
              | InverseMarking.Kind.Explicit =>
                  assert (isValid loc) "loc" ;;
                  diagnose loc
                    (note_inverse_preventing_conformance_explicit
                       (nominalID nominal) (getProtocolName kp)) []
              end
            else ret tt
        | None => ret tt
        end
      else ret tt
  end.

(** ** The storage visitor *)

(** [StorageVisitor] is an abstract class with one call operator per kind
    of storage member; each returns true to stop the walk. A visitor may
    keep and change state of its own, of type [St]. *)
Record StorageVisitor (St : Type) := {
  visitProperty : VarDecl Ty -> Ty -> M St bool;
  visitElement : EnumElementDecl Ty -> Ty -> M St bool
}.

Section Visit.
Variable St : Type.
Variable V : StorageVisitor St.
Variable dc : DeclContext.

(** The loop over [nominal->getStoredProperties()]. *)
Fixpoint visitStoredProperties (properties : list (VarDecl Ty)) : M St bool :=
  match properties with
  | [] => ret false
  | property :: rest =>
      let propertyType :=
        getReferenceStorageReferent
          (getRValueType
             (mapTypeIntoContext dc (varInterfaceType property))) in
      stop <- visitProperty V property propertyType ;;
      if (stop : bool) then ret true else visitStoredProperties rest
  end.

(** The inner loop over [caseDecl->getElements()]. *)
Fixpoint visitElements (elements : list (EnumElementDecl Ty)) : M St bool :=
  match elements with
  | [] => ret false
  | element :: rest =>
      match getArgumentInterfaceType element with
      | None => visitElements rest
      | Some argumentInterfaceType =>
          let elementType := mapTypeIntoContext dc argumentInterfaceType in
          stop <- visitElement V element elementType ;;
          if (stop : bool) then ret true else visitElements rest
      end
  end.

(** The outer loop over [enumDecl->getAllCases()]. *)
Fixpoint visitAllCases (cases : list (EnumCaseDecl Ty)) : M St bool :=
  match cases with
  | [] => ret false
  | caseDecl :: rest =>
      stop <- visitElements (getElements caseDecl) ;;
      if (stop : bool) then ret true else visitAllCases rest
  end.

(** [StorageVisitor::visit(nominal, dc)]. *)
Definition visit (nominal : NominalTypeDecl Ty) : M St bool :=
  if isa_StructDecl nominal || isa_ClassDecl nominal then
    visitStoredProperties (getStoredProperties nominal)
  else
    match nominalKind nominal with
    | EnumDecl allCases => visitAllCases allCases
    | _ =>
        assert (negb (isa_ProtocolDecl nominal)
                || negb (isa_BuiltinTupleDecl nominal))
               "!isa<ProtocolDecl>(nominal) || !isa<BuiltinTupleDecl>(nominal)" ;;
        ret false
    end.
End Visit.

(** ** Checking a Copyable conformance *)

(** [HasNoncopyable::check]. *)
Definition check (Nominal : NominalTypeDecl Ty) (DC : DeclContext)
    (Diagnosing : bool) (storage : ValueDecl Ty) (type : Ty) (isEnum : bool)
  : Sema bool :=
  if hasError type then ret false
  else if negb (isNoncopyable type DC) then ret false
  else if negb Diagnosing then ret true
  else
    diagnose (valueLoc storage)
      (noncopyable_type_member_in_copyable type isEnum (valueName storage)
         (nominalID Nominal)) [] ;;
    tryEmitContainmentFixits Nominal type Copyable ;;
    ret true.

(** The local class [HasNoncopyable] as a storage visitor. *)
Definition HasNoncopyable (nom : NominalTypeDecl Ty) (dc : DeclContext)
    (diagnosing : bool) : StorageVisitor ASTState :=
  {| visitProperty := fun property propertyType =>
       check nom dc diagnosing (VD_Var property) propertyType false;
     visitElement := fun element elementType =>
       check nom dc diagnosing (VD_EnumElement element) elementType true |}.

Definition checkCopyableConformance (conformance : NormalProtocolConformance Ty)
  : Sema bool :=
  let proto := confProtocol conformance in
  assert (isSpecificProtocol proto Copyable)
         "proto->isSpecificProtocol(KnownProtocolKind::Copyable)" ;;
  match getAnyNominal (confType conformance) with
  | None =>
      assert false "non-nominal with conformance?" ;;
      ret false
  | Some nom =>
      if isa_ClassDecl nom then ret true
      else if isa_ProtocolDecl nom then ret true
      else if isa_BuiltinTupleDecl nom then
        llvm_unreachable "TODO: BuiltinTupleDecl"
      else
        stop <- visit (HasNoncopyable nom (confDeclContext conformance) true)
                      (confDeclContext conformance) nom ;;
        ret (negb stop)
  end.

(** ** Vocabulary of the statements *)

(** What the derivation relies on from [getNormalConformance]: the
    conformance it hands out is declared in the context it was asked for. *)
Definition ArenaRespectsContext : Prop :=
  forall arena ty proto loc dc st isUnchecked,
    confDeclContext
      (fst (getNormalConformance arena ty proto loc dc st isUnchecked)) = dc.

(** The extension that [generateConditionalConformance] builds when the
    next free declaration identity is [id]. *)
Definition conditionalExtension (nominal : NominalTypeDecl Ty)
    (proto : ProtocolDecl) (id : DeclID) : ExtensionDecl Ty :=
  {| extID := id; extLoc := None;
     extInherited := [protoDeclaredInterfaceType proto];
     extParent := getDeclContext nominal; isImplicit := true;
     extGenericSignature :=
       Some (buildGenericSignature (getGenericSignature nominal) []
               (map (fun param =>
                       {| reqKind := Conformance; reqFirst := param;
                          reqSecond := protoDeclaredInterfaceType proto |})
                    (getGenericParams (getGenericSignature nominal))));
     getExtendedNominal := Some (nominalID nominal) |}.

Definition topLevelEntry (nominal : NominalTypeDecl Ty) (e : ExtensionDecl Ty)
  : list (nat * ExtensionDecl Ty) :=
  match dyn_cast_FileUnit (getModuleScopeContext nominal) with
  | Some file => [(file, e)]
  | None => []
  end.

(** A storage visitor that only records what it is called with, and stops
    when [stop] says so: its state is the list of calls so far. *)
Definition recorder (stop : ValueDecl Ty -> Ty -> bool)
  : StorageVisitor (list (ValueDecl Ty * Ty)) :=
  {| visitProperty := fun property propertyType log =>
       Returned (stop (VD_Var property) propertyType)
                (log ++ [(VD_Var property, propertyType)]);
     visitElement := fun element elementType log =>
       Returned (stop (VD_EnumElement element) elementType)
                (log ++ [(VD_EnumElement element, elementType)]) |}.

(** The type the visitor computes for a storage member [m] seen through
    [dc], as a relation between the member and the type [t] passed on. *)
Definition passedType (dc : DeclContext) (m : ValueDecl Ty) (t : Ty) : Prop :=
  match m with
  | VD_Var property =>
      t = getReferenceStorageReferent
            (getRValueType (mapTypeIntoContext dc (varInterfaceType property)))
  | VD_EnumElement element =>
      exists argumentInterfaceType,
        getArgumentInterfaceType element = Some argumentInterfaceType
        /\ t = mapTypeIntoContext dc argumentInterfaceType
  end.

Definition visitedEntry (dc : DeclContext) (entry : ValueDecl Ty * Ty) : Prop :=
passedType dc (fst entry) (snd entry).

(** The storage members of a nominal in the order of the walk: the stored
    properties of a struct or class, the elements with a payload of an
    enum. *)
Definition storageMembers (nominal : NominalTypeDecl Ty) : list (ValueDecl Ty) :=
  match nominalKind nominal with
  | StructDecl ps | ClassDecl ps => map (@VD_Var Ty) ps
  | EnumDecl cases =>
      flat_map (fun c => map (@VD_EnumElement Ty)
                           (filter (@hasAssociatedValues Ty) (getElements c)))
               cases
  | _ => []
  end.

(** A member type that lacks Copyable only if it contains an error. *)
Definition noncopyableOnlyIfError (dc : DeclContext) (t : Ty) : Prop :=
  isNoncopyable t dc = true -> hasError t = true.

(** ** Vocabulary for the walk and for the effects of the checker *)

(** The storage members of a nominal with the types the walk computes for
    them, in the order of the walk. *)
Definition propertyEntry (dc : DeclContext) (property : VarDecl Ty)
  : ValueDecl Ty * Ty :=
  (VD_Var property,
   getReferenceStorageReferent
     (getRValueType (mapTypeIntoContext dc (varInterfaceType property)))).

Fixpoint elementEntries (dc : DeclContext) (elements : list (EnumElementDecl Ty))
  : list (ValueDecl Ty * Ty) :=
  match elements with
  | [] => []
  | element :: rest =>
      match getArgumentInterfaceType element with
      | Some argumentInterfaceType =>
          (VD_EnumElement element, mapTypeIntoContext dc argumentInterfaceType)
            :: elementEntries dc rest
      | None => elementEntries dc rest
      end
  end.

Definition storageEntries (dc : DeclContext) (nominal : NominalTypeDecl Ty)
  : list (ValueDecl Ty * Ty) :=
  match nominalKind nominal with
  | StructDecl ps | ClassDecl ps => map (propertyEntry dc) ps
  | EnumDecl cases => flat_map (fun c => elementEntries dc (getElements c)) cases
  | _ => []
  end.

(** The elements of a list up to and including the first that satisfies [p]. *)
Fixpoint takeThrough {A : Type} (p : A -> bool) (l : list A) : list A :=
  match l with
  | [] => []
  | x :: rest => if p x then [x] else x :: takeThrough p rest
  end.

(** A storage member that [HasNoncopyable::check] reports: its type has no
    error and lacks Copyable. *)
Definition offending (dc : DeclContext) (entry : ValueDecl Ty * Ty) : bool :=
  negb (hasError (snd entry)) && isNoncopyable (snd entry) dc.

(** The [isEnum] argument the visitor passes for a storage member. *)
Definition isEnumMember (m : ValueDecl Ty) : bool :=
  match m with VD_Var _ => false | VD_EnumElement _ => true end.

(** The state in which a computation ended, returned or not. *)
Definition finalState {St A : Type} (o : Outcome St A) : St :=
  match o with Returned _ s => s | Fatal _ s => s end.

(** [s'] differs from [s] by the diagnostics [added] at the end, and by
    nothing else. *)
Definition onlyDiagnosed (s s' : ASTState) (added : list (Diagnostic Ty)) : Prop :=
  Diags s' = Diags s ++ added
  /\ Arena s' = Arena s
  /\ NextDeclID s' = NextDeclID s
  /\ Extensions s' = Extensions s
  /\ Conformances s' = Conformances s
  /\ TopLevelDecls s' = TopLevelDecls s
  /\ ExtendedTypeCache s' = ExtendedTypeCache s.

(** The two diagnostics every reported member starts with. *)
Definition memberDiagnostic (nom : NominalTypeDecl Ty) (m : ValueDecl Ty) (t : Ty)
  : Diagnostic Ty :=
  {| diagLoc := valueLoc m;
     diagID := noncopyable_type_member_in_copyable t (isEnumMember m)
                 (valueName m) (nominalID nom);
     diagFixIts := [] |}.

Definition addInverseDiagnostic (nom : NominalTypeDecl Ty) (kp : KnownProtocolKind)
  : Diagnostic Ty :=
  {| diagLoc := nominalLoc nom;
     diagID := add_inverse (nominalID nom) (getProtocolName kp);
     diagFixIts := [addConformanceFixIt nom kp true] |}.

(** Every extension the state knows of was created before the next free
    declaration identity. *)
Definition extensionsAllocated (s : ASTState) : Prop :=
  Forall (fun entry => extID (snd entry) < NextDeclID s) (Extensions s).

Definition extensionIDs (s : ASTState) : list DeclID :=
  map (fun entry => extID (snd entry)) (Extensions s).

(** The call operator of a visitor on a storage member of either kind. *)
Definition callOn {St : Type} (V : StorageVisitor St) (m : ValueDecl Ty) (t : Ty)
  : M St bool :=
  match m with
  | VD_Var property => visitProperty V property t
  | VD_EnumElement element => visitElement V element t
  end.

(** Run [f] on the entries in order until it returns true. *)
Fixpoint untilTrue {St : Type} (f : ValueDecl Ty -> Ty -> M St bool)
    (entries : list (ValueDecl Ty * Ty)) : M St bool :=
  match entries with
  | [] => ret false
  | entry :: rest =>
      stop <- f (fst entry) (snd entry) ;;
      if (stop : bool) then ret true else untilTrue f rest
  end.

(** An offending type the fix-its cannot explain: not an archetype, resolving
    to a nominal with a valid source location whose inverse marking is None
    or has no valid location. *)
Definition unexplainedOffender (t : Ty) : Prop :=
  getAs_ArchetypeType t = None
  /\ exists nominal,
       getAnyNominal t = Some nominal
       /\ isValid (nominalLoc nominal) = true
       /\ (InverseMarking.getKind (getInverse (getNoncopyableMarking nominal))
             = InverseMarking.Kind.None
           \/ isValid (InverseMarking.getLoc
                         (getInverse (getNoncopyableMarking nominal))) = false).

(** What the identity of a derived conformance relies on from
    [getNormalConformance]: asked again with the same arguments, in the arena
    the first request left, it hands out the conformance of the first request
    and leaves the arena as it is. *)
Definition ArenaReusesConformance : Prop :=
  forall arena ty proto loc dc st isUnchecked,
    getNormalConformance
      (snd (getNormalConformance arena ty proto loc dc st isUnchecked))
      ty proto loc dc st isUnchecked
    = getNormalConformance arena ty proto loc dc st isUnchecked.

End Sema.

Arguments ASTState Ty {AST}.

(** ** The noncopyable query ([IsNoncopyableRequest::evaluate])

    The queries the request makes are declared outside this file. Here
    [ctx.getProtocol] may return null: the request tests for it. *)

Record PackExpansionType (Ty : Type) := { getPatternType : Ty }.

Class ConformanceQueries (Ty : Type) := {
  hasTypeParameter : Ty -> bool;
  getAs_PackExpansionType : Ty -> option (PackExpansionType Ty);
  getCanonicalType : Ty -> Ty;
  ctx_getProtocol : KnownProtocolKind -> option ProtocolDecl;
  (* (bool)TypeChecker::conformsToProtocol(type, proto, module, allowMissing) *)
  conformsToProtocol : Ty -> ProtocolDecl -> ModuleID -> bool -> bool
}.

Definition IsNoncopyableRequest_evaluate {Ty : Type} {Q : ConformanceQueries Ty}
    {St : Type} (type : Ty) : M St bool :=
  assert (negb (hasTypeParameter type)) "forgot to mapTypeIntoContext first" ;;
  let type :=
    match getAs_PackExpansionType type with
    | Some pet => getCanonicalType (getPatternType pet)
    | None => type
    end in
  match ctx_getProtocol Copyable with
  | None => llvm_unreachable "missing Copyable protocol!"
  | Some copyable =>
      let conforms :=
        conformsToProtocol type copyable (protoParentModule copyable) false in
      ret (negb conforms)
  end.

(** ** The attribute loop of [AllocBoxInstructionVisitor::visit]
    (lib/SIL/Parser/SILInstruction/AllocBoxInstructionVisitor.cpp)

    The loop runs while [P.parseSILOptional] yields an attribute; its input
    here is the list of the attributes yielded, each with its location, in
    order. The state of the loop is the four local flags and the diagnostics
    of the parser. After the loop and the parse of the type, a move-only type
    sets [usesMoveableValueDebugInfo]; the flags are then the arguments of
    [B.createAllocBox]. *)

Module AllocBox.

Inductive HasDynamicLifetime_t := DoesNotHaveDynamicLifetime | HasDynamicLifetime.
Inductive UsesMoveableValueDebugInfo_t :=
  DoesNotUseMoveableValueDebugInfo | UsesMoveableValueDebugInfo.
Inductive HasPointerEscape_t := DoesNotHavePointerEscape | HasPointerEscape.

Record Flags := {
  hasDynamicLifetime : HasDynamicLifetime_t;
  hasReflection : bool;
  usesMoveableValueDebugInfo : UsesMoveableValueDebugInfo_t;
  hasPointerEscape : HasPointerEscape_t
}.

(** [diag::sil_invalid_attribute_for_expected] with its two arguments. *)
Record AttributeDiagnostic := {
  attrDiagLoc : SourceLoc;
  invalidAttribute : string;
  expected : string
}.

Definition expectedAttributes : string :=
  "dynamic_lifetime, reflection, pointer_escape or usesMoveableValueDebugInfo".

(** The flags at the declarations before the loop. *)
Definition initialFlags : Flags :=
  {| hasDynamicLifetime := DoesNotHaveDynamicLifetime;
     hasReflection := false;
     usesMoveableValueDebugInfo := DoesNotUseMoveableValueDebugInfo;
     hasPointerEscape := DoesNotHavePointerEscape |}.

(** One iteration of the loop body. *)
Definition attributeStep (st : Flags * list AttributeDiagnostic)
    (attr : string * SourceLoc) : Flags * list AttributeDiagnostic :=
  let (flags, diags) := st in
  let (attrName, attrLoc) := attr in
  if String.eqb attrName "dynamic_lifetime" then
    ({| hasDynamicLifetime := HasDynamicLifetime;
        hasReflection := hasReflection flags;
        usesMoveableValueDebugInfo := usesMoveableValueDebugInfo flags;
        hasPointerEscape := hasPointerEscape flags |}, diags)
  else if String.eqb attrName "reflection" then
    ({| hasDynamicLifetime := hasDynamicLifetime flags;
        hasReflection := true;
        usesMoveableValueDebugInfo := usesMoveableValueDebugInfo flags;
        hasPointerEscape := hasPointerEscape flags |}, diags)
  else if String.eqb attrName "moveable_value_debuginfo" then
    ({| hasDynamicLifetime := hasDynamicLifetime flags;
        hasReflection := hasReflection flags;
        usesMoveableValueDebugInfo := UsesMoveableValueDebugInfo;
        hasPointerEscape := hasPointerEscape flags |}, diags)
  else if String.eqb attrName "pointer_escape" then
    ({| hasDynamicLifetime := hasDynamicLifetime flags;
        hasReflection := hasReflection flags;
        usesMoveableValueDebugInfo := usesMoveableValueDebugInfo flags;
        hasPointerEscape := HasPointerEscape |}, diags)
  else
    (flags,
     diags ++ [ {| attrDiagLoc := attrLoc; invalidAttribute := attrName;
                   expected := expectedAttributes |} ]).

(** The whole loop, from the initial flags and the diagnostics so far. *)
Definition parseAttributes (attrs : list (string * SourceLoc))
    (diags : list AttributeDiagnostic) : Flags * list AttributeDiagnostic :=
  fold_left attributeStep attrs (initialFlags, diags).

(** [if (Ty.isMoveOnly()) usesMoveableValueDebugInfo = ...], after the loop. *)
Definition afterType (flags : Flags) (isMoveOnly : bool) : Flags :=
  if isMoveOnly then
    {| hasDynamicLifetime := hasDynamicLifetime flags;
       hasReflection := hasReflection flags;
       usesMoveableValueDebugInfo := UsesMoveableValueDebugInfo;
       hasPointerEscape := hasPointerEscape flags |}
  else flags.

(** The attribute names the loop accepts. *)
Definition accepted (attrName : string) : bool :=
  String.eqb attrName "dynamic_lifetime"
  || String.eqb attrName "reflection"
  || String.eqb attrName "moveable_value_debuginfo"
  || String.eqb attrName "pointer_escape".

Definition occurs (name : string) (attrs : list (string * SourceLoc)) : bool :=
  existsb (fun attr => String.eqb (fst attr) name) attrs.

(** The flags the loop computes when it starts from [flags], given by the
    attribute names that occur. *)
Definition flagsFrom (flags : Flags) (attrs : list (string * SourceLoc)) : Flags :=
  {| hasDynamicLifetime :=
       if occurs "dynamic_lifetime" attrs then HasDynamicLifetime
       else hasDynamicLifetime flags;
     hasReflection := hasReflection flags || occurs "reflection" attrs;
     usesMoveableValueDebugInfo :=
       if occurs "moveable_value_debuginfo" attrs then UsesMoveableValueDebugInfo
       else usesMoveableValueDebugInfo flags;
     hasPointerEscape :=
       if occurs "pointer_escape" attrs then HasPointerEscape
       else hasPointerEscape flags |}.

Definition rejected (attrs : list (string * SourceLoc)) : list AttributeDiagnostic :=
  map (fun attr => {| attrDiagLoc := snd attr; invalidAttribute := fst attr;
                      expected := expectedAttributes |})
      (filter (fun attr => negb (accepted (fst attr))) attrs).

End AllocBox.

(** ** A concrete instance of the services

    A small type language with the wrappers the visitor looks through, a
    table of declarations, a signature builder that appends, and an arena
    that returns the conformance already made for a protocol and a
    declaration context if there is one. The general theorems are applied
    to it, and the statements that do not hold are refuted on it. *)

Module Sample.

Inductive SampleTy :=
| TNominal (decl : DeclID)
| TProtocol (decl : DeclID)
| TGenericParam (index : nat)
| TArchetype (index : nat)
| TLValue (object : SampleTy)
| TReferenceStorage (referent : SampleTy)
| TError.


Fixpoint s_hasError (t : SampleTy) : bool :=
  match t with
  | TError => true
  | TLValue u | TReferenceStorage u => s_hasError u
  | _ => false
  end.

Definition s_getRValueType (t : SampleTy) : SampleTy :=
  match t with TLValue u => u | _ => t end.

Definition s_getReferenceStorageReferent (t : SampleTy) : SampleTy :=
  match t with TReferenceStorage u => u | _ => t end.

Fixpoint s_mapTypeIntoContext (dc : DeclContext) (t : SampleTy) : SampleTy :=
  match t with
  | TGenericParam i => TArchetype i
  | TLValue u => TLValue (s_mapTypeIntoContext dc u)
  | TReferenceStorage u => TReferenceStorage (s_mapTypeIntoContext dc u)
  | _ => t
  end.

Definition mark (k : InverseMarking.Kind.t) (loc : SourceLoc) : InverseMarking.Mark :=
  {| InverseMarking.getKind := k; InverseMarking.getLoc := loc |}.

Definition noMark : InverseMarking.Mark := mark InverseMarking.Kind.None None.

Definition mkNominal (id : DeclID) (kind : NominalKind SampleTy)
    (positive inverse : InverseMarking.Mark) (params : list SampleTy)
    (scope : DeclContext) : NominalTypeDecl SampleTy :=
  {| nominalID := id; nominalKind := kind; nominalLoc := Some (10 * id);
     getInherited := []; getBracesStart := Some (10 * id + 5);
     getParentModule := 0;
     getNoncopyableMarking := {| getPositive := positive; getInverse := inverse |};
     getGenericSignature := {| getGenericParams := params; getRequirements := [] |};
     getDeclContext := scope; getModuleScopeContext := scope;
     getDeclaredInterfaceType := TNominal id |}.

Definition field (name : string) (loc : nat) (t : SampleTy) : VarDecl SampleTy :=
  {| varName := name; varLoc := Some loc; varInterfaceType := t |}.

Definition payload (name : string) (loc : nat) (t : option SampleTy)
  : EnumElementDecl SampleTy :=
  {| elemName := name; elemLoc := Some loc; getArgumentInterfaceType := t |}.

(** The declarations of the sample module. *)
Definition Plain := (* struct Plain {} *)
  mkNominal 1 (StructDecl []) noMark noMark [] (DC_FileUnit 0).
Definition Token := (* struct Token: ~Copyable {} *)
  mkNominal 2 (StructDecl []) noMark
    (mark InverseMarking.Kind.Explicit (Some 27)) [] (DC_FileUnit 0).
Definition Box := (* struct Box<T: ~Copyable> { var value: T } *)
  mkNominal 3 (StructDecl [field "value" 33 (TGenericParam 0)]) noMark
    (mark InverseMarking.Kind.Inferred (Some 31)) [TGenericParam 0]
    (DC_FileUnit 0).
Definition Ref := (* class Ref { var token: Token } *)
  mkNominal 4 (ClassDecl [field "token" 43 (TNominal 2)]) noMark noMark []
    (DC_FileUnit 0).
Definition Both := (* struct Both: Copyable, ~Copyable {} *)
  mkNominal 5 (StructDecl [])
    (mark InverseMarking.Kind.Explicit (Some 56))
    (mark InverseMarking.Kind.Explicit (Some 57)) [] (DC_FileUnit 0).
Definition Proto := (* protocol Proto {} *)
  mkNominal 6 ProtocolDeclKind noMark noMark [] (DC_FileUnit 0).
Definition Tuple := (* the built-in tuple declaration *)
  mkNominal 7 BuiltinTupleDecl noMark noMark [] (DC_FileUnit 0).
Definition Slot := (* enum Slot { case empty; case held(payload type) } *)
  mkNominal 8
    (EnumDecl [ {| getElements := [payload "empty" 82 None] |};
                {| getElements :=
                     [payload "held" 84 (Some (TReferenceStorage (TNominal 1)))] |} ])
    noMark noMark [] (DC_FileUnit 0).
Definition Pair := (* a generic struct whose module scope is not a file *)
  mkNominal 9 (StructDecl [field "first" 93 (TGenericParam 0)]) noMark
    (mark InverseMarking.Kind.Inferred (Some 91))
    [TGenericParam 0; TGenericParam 1] (DC_Module 0).
Definition Broken := (* struct Broken { var bad: <<error type>> } *)
  mkNominal 10 (StructDecl [field "bad" 103 TError]) noMark noMark []
    (DC_FileUnit 0).
Definition Holder := (* struct Holder { var plain: Plain } *)
  mkNominal 11 (StructDecl [field "plain" 113 (TNominal 1)]) noMark noMark []
    (DC_FileUnit 0).

Definition declTable : list (NominalTypeDecl SampleTy) :=
  [Plain; Token; Box; Ref; Both; Proto; Tuple; Slot; Pair; Broken; Holder].

Definition s_getAnyNominal (t : SampleTy) : option (NominalTypeDecl SampleTy) :=
  match t with
  | TNominal id => find (fun d => Nat.eqb (nominalID d) id) declTable
  | _ => None
  end.

(** Error types and the nominal [Token] lack Copyable here. *)
Definition s_isNoncopyable (t : SampleTy) (dc : DeclContext) : bool :=
  match t with
  | TNominal 2 => true
  | TError => true
  | _ => false
  end.

Definition s_getAs_ArchetypeType (t : SampleTy) : option (ArchetypeType SampleTy) :=
  match t with
  | TArchetype i => Some {| getInterfaceType := TGenericParam i |}
  | _ => None
  end.

Definition s_getAs_GenericTypeParamType (t : SampleTy) : option GenericTypeParamType :=
  match t with
  | TGenericParam i =>
      Some {| getDecl := Some {| gpLoc := Some (200 + i); getModuleContext := 0 |} |}
  | _ => None
  end.

Definition s_getProtocol (kp : KnownProtocolKind) : ProtocolDecl :=
  {| protoID := match kp with
                | Copyable => 100 | Sendable => 101
                | Equatable => 102 | Hashable => 103
                end;
     protoKnownKind := Some kp;
     protoParentModule := 0 |}.

Definition s_buildGenericSignature (base : GenericSignature SampleTy)
    (addedParams : list SampleTy) (addedReqs : list (Requirement SampleTy))
  : GenericSignature SampleTy :=
  {| getGenericParams := getGenericParams base ++ addedParams;
     getRequirements := getRequirements base ++ addedReqs |}.

Definition DeclContext_eqb (a b : DeclContext) : bool :=
  match a, b with
  | DC_Nominal x, DC_Nominal y | DC_Extension x, DC_Extension y
  | DC_FileUnit x, DC_FileUnit y | DC_Module x, DC_Module y => Nat.eqb x y
  | _, _ => false
  end.

(** An arena that hands out one conformance per protocol and declaration
    context: a second request with the same two gets the first object. *)
Definition s_getNormalConformance (arena : list (NormalProtocolConformance SampleTy))
    (ty : SampleTy) (proto : ProtocolDecl) (loc : SourceLoc) (dc : DeclContext)
    (st : ProtocolConformanceState) (isUnchecked : bool)
  : NormalProtocolConformance SampleTy * list (NormalProtocolConformance SampleTy) :=
  match find (fun c => Nat.eqb (protoID (confProtocol c)) (protoID proto)
                       && DeclContext_eqb (confDeclContext c) dc) arena with
  | Some c => (c, arena)
  | None =>
      let c := {| confAddr := List.length arena; confType := ty;
                  confProtocol := proto; confLoc := loc;
                  confDeclContext := dc; confState := st;
                  confIsUnchecked := isUnchecked;
                  confSourceKind := Explicit; confImplying := None |} in
      (c, arena ++ [c])
  end.

#[export] Instance services : ASTServices SampleTy := {|
  hasError := s_hasError;
  getRValueType := s_getRValueType;
  getReferenceStorageReferent := s_getReferenceStorageReferent;
  mapTypeIntoContext := s_mapTypeIntoContext;
  isNoncopyable := s_isNoncopyable;
  getAs_ArchetypeType := s_getAs_ArchetypeType;
  getAs_GenericTypeParamType := s_getAs_GenericTypeParamType;
  getAnyNominal := s_getAnyNominal;
  getProtocol := s_getProtocol;
  protoDeclaredInterfaceType := fun p => TProtocol (protoID p);
  buildGenericSignature := s_buildGenericSignature;
  ConformanceArena := list (NormalProtocolConformance SampleTy);
  getNormalConformance := s_getNormalConformance
|}.

(** The state before any derivation; declaration identities below 1000 are
    those of the table. *)
Definition initial : ASTState SampleTy :=
  {| Diags := []; Arena := []; NextDeclID := 1000; Extensions := [];
     Conformances := []; TopLevelDecls := []; ExtendedTypeCache := [] |}.

(** The Copyable conformance of a declaration of the table, declared in
    the declaration itself. *)
Definition conformanceOf (d : NominalTypeDecl SampleTy)
  : NormalProtocolConformance SampleTy :=
  {| confAddr := 0; confType := TNominal (nominalID d);
     confProtocol := s_getProtocol Copyable; confLoc := nominalLoc d;
     confDeclContext := DC_Nominal (nominalID d); confState := Complete;
     confIsUnchecked := false; confSourceKind := Synthesized;
     confImplying := None |}.

Definition neverStop (m : ValueDecl SampleTy) (t : SampleTy) : bool := false.

End Sample.

(** Further declarations, and the services of [Sample] with a declaration
    table that knows them too. *)
Module SampleMore.
Import Sample.

Definition Pinned := (* struct Pinned<T: ~Copyable>: Copyable {} *)
  mkNominal 12 (StructDecl [])
    (mark InverseMarking.Kind.Explicit (Some 126))
    (mark InverseMarking.Kind.Inferred (Some 127)) [TGenericParam 0]
    (DC_FileUnit 0).
Definition Vault :=
  (* struct Vault { var plain: Plain; var token: Token; var spare: Token } *)
  mkNominal 13
    (StructDecl [field "plain" 133 (TNominal 1); field "token" 134 (TNominal 2);
                 field "spare" 135 (TNominal 2)])
    noMark noMark [] (DC_FileUnit 0).
Definition Shelf :=
  (* enum Shelf<T> { case none; case item(T); case token(Token) } *)
  mkNominal 14
    (EnumDecl [ {| getElements := [payload "none" 142 None;
                                   payload "item" 143 (Some (TGenericParam 0))] |};
                {| getElements := [payload "token" 144 (Some (TNominal 2))] |} ])
    noMark noMark [TGenericParam 0] (DC_FileUnit 0).




Definition m_getAnyNominal (t : SampleTy) : option (NominalTypeDecl SampleTy) :=
  match t with
  | TNominal 12 => Some Pinned
  | TNominal 13 => Some Vault
  | TNominal 14 => Some Shelf
  | _ => s_getAnyNominal t
  end.

Definition extended : ASTServices SampleTy := {|
  hasError := s_hasError;
  getRValueType := s_getRValueType;
  getReferenceStorageReferent := s_getReferenceStorageReferent;
  mapTypeIntoContext := s_mapTypeIntoContext;
  isNoncopyable := s_isNoncopyable;
  getAs_ArchetypeType := s_getAs_ArchetypeType;
  getAs_GenericTypeParamType := s_getAs_GenericTypeParamType;
  getAnyNominal := m_getAnyNominal;
  getProtocol := s_getProtocol;
  protoDeclaredInterfaceType := fun p => TProtocol (protoID p);
  buildGenericSignature := s_buildGenericSignature;
  ConformanceArena := list (NormalProtocolConformance SampleTy);
  getNormalConformance := s_getNormalConformance
|}.

Definition start : @ASTState SampleTy extended :=
  @Build_ASTState SampleTy extended [] [] 1000 [] [] [] [].

End SampleMore.

(** A type language with pack expansions for the noncopyable query. *)
Module SampleQueries.

Inductive QTy :=
| QNominal (decl : DeclID)
| QParam (index : nat)
| QPack (pattern : QTy).

Fixpoint q_hasTypeParameter (t : QTy) : bool :=
  match t with
  | QNominal _ => false
  | QParam _ => true
  | QPack u => q_hasTypeParameter u
  end.

Definition q_copyable : ProtocolDecl :=
  {| protoID := 100; protoKnownKind := Some Copyable; protoParentModule := 0 |}.

#[export] Instance queries : ConformanceQueries QTy := {|
  hasTypeParameter := q_hasTypeParameter;
  getAs_PackExpansionType := fun t =>
    match t with
    | QPack u => Some {| getPatternType := u |}
    | _ => None
    end;
  getCanonicalType := fun t => t;
  ctx_getProtocol := fun kp =>
    match kp with Copyable => Some q_copyable | _ => None end;
  conformsToProtocol := fun t proto module allowMissing =>
    match t with
    | QNominal 2 => false
    | QNominal _ => true
    | _ => false
    end
|}.

End SampleQueries.

(** * Properties of the derivation *)

Section DeriveFacts.
Context {Ty : Type} {AST : ASTServices Ty}.

(** One run of [generateConformance], written out. *)
Lemma generateConformance_run (nominal : NominalTypeDecl Ty)
    (proto : ProtocolDecl) (dc : DeclContext) (s : ASTState Ty) :
  generateConformance nominal proto dc s =
    let r := getNormalConformance (Arena s) (getDeclaredInterfaceType nominal)
               proto (nominalLoc nominal) dc Complete false in
    let c := setSourceKindAndImplyingConformance (fst r) Synthesized None in
    Returned c
      {| Diags := Diags s; Arena := snd r; NextDeclID := NextDeclID s;
         Extensions := Extensions s;
         Conformances := Conformances s ++ [(nominalID nominal, (c, true))];
         TopLevelDecls := TopLevelDecls s;
         ExtendedTypeCache := ExtendedTypeCache s |}.
Proof.
  unfold generateConformance, bind, ctx_getNormalConformance,
    registerProtocolConformance, modify, ret.
  destruct (getNormalConformance _ _ _ _ _ _ _) as [c a]; reflexivity.
Qed.

(** One run of [generateConditionalConformance], written out. *)
Lemma generateConditionalConformance_run (nominal : NominalTypeDecl Ty)
    (proto : ProtocolDecl) (s : ASTState Ty) :
  generateConditionalConformance nominal proto s =
    let ext := conditionalExtension nominal proto (NextDeclID s) in
    let r := getNormalConformance (Arena s) (getDeclaredInterfaceType nominal)
               proto (nominalLoc nominal) (DC_Extension (NextDeclID s))
               Complete false in
    let c := setSourceKindAndImplyingConformance (fst r) Synthesized None in
    Returned c
      {| Diags := Diags s; Arena := snd r; NextDeclID := S (NextDeclID s);
         Extensions := Extensions s ++ [(nominalID nominal, ext)];
         Conformances := Conformances s ++ [(nominalID nominal, (c, true))];
         TopLevelDecls := TopLevelDecls s ++ topLevelEntry nominal ext;
         ExtendedTypeCache :=
           ExtendedTypeCache s
             ++ [(NextDeclID s, getDeclaredInterfaceType nominal)] |}.
Proof.
  unfold generateConditionalConformance, topLevelEntry.
  unfold bind at 1 2 3 4.
  cbn [ExtensionDecl_create cacheOutput_ExtendedTypeRequest addExtension modify].
  destruct (dyn_cast_FileUnit (getModuleScopeContext nominal)) as [file|];
    cbn [addTopLevelDecl modify ret];
    rewrite generateConformance_run; cbn -[getNormalConformance];
    rewrite ?app_nil_r; reflexivity.
Qed.

Lemma setSourceKind_declContext (c : NormalProtocolConformance Ty)
    (k : ConformanceEntryKind) (implying : option nat) :
  confDeclContext (setSourceKindAndImplyingConformance c k implying)
  = confDeclContext c.
Proof. reflexivity. Qed.

(** One run of the derivation on each row of the decision table. *)
Lemma derive_explicit_positive (nominal : NominalTypeDecl Ty) (s : ASTState Ty) :
  InverseMarking.getKind (getPositive (getNoncopyableMarking nominal))
    = InverseMarking.Kind.Explicit ->
  deriveConformanceForInvertible nominal Copyable s =
    bind (if InverseMarking.Kind.eqb
               (InverseMarking.getKind (getInverse (getNoncopyableMarking nominal)))
               InverseMarking.Kind.Explicit
          then diagnose
                 (InverseMarking.getLoc (getInverse (getNoncopyableMarking nominal)))
                 (noncopyable_but_copyable (nominalID nominal)) []
          else ret tt)
         (fun _ =>
            bind (generateConformance nominal (getProtocol Copyable)
                    (DC_Nominal (nominalID nominal)))
                 (fun c => ret (Some c))) s.
Proof.
  intros Hpos. unfold deriveConformanceForInvertible.
  cbn [getInvertibleProtocolKind]. rewrite Hpos. reflexivity.
Qed.

Lemma derive_no_positive (nominal : NominalTypeDecl Ty) (s : ASTState Ty) :
  InverseMarking.getKind (getPositive (getNoncopyableMarking nominal))
    = InverseMarking.Kind.None ->
  deriveConformanceForInvertible nominal Copyable s =
    match InverseMarking.getKind (getInverse (getNoncopyableMarking nominal)) with
    | InverseMarking.Kind.Explicit => Returned None s
    | InverseMarking.Kind.Inferred =>
        bind (generateConditionalConformance nominal (getProtocol Copyable))
             (fun c => ret (Some c)) s
    | InverseMarking.Kind.None =>
        bind (generateConformance nominal (getProtocol Copyable)
                (DC_Nominal (nominalID nominal)))
             (fun c => ret (Some c)) s
    end.
Proof.
  intros Hpos. unfold deriveConformanceForInvertible.
  cbn [getInvertibleProtocolKind]. rewrite Hpos.
  cbn [InverseMarking.Kind.eqb assert]. unfold bind at 1. cbn [ret].
  destruct (InverseMarking.getKind (getInverse (getNoncopyableMarking nominal)));
    reflexivity.
Qed.

(** C2. When the inverse marking of D is Explicit and its positive marking
    is None, [deriveConformanceForInvertible(D, Copyable)] returns absent
    (null) and leaves the whole analysis state as it was: no conformance is
    registered on D, and nothing else is written either. *)
Theorem C2_explicit_inverse_returns_absent
    (nominal : NominalTypeDecl Ty) (s : ASTState Ty) :
  InverseMarking.getKind (getInverse (getNoncopyableMarking nominal))
    = InverseMarking.Kind.Explicit ->
  InverseMarking.getKind (getPositive (getNoncopyableMarking nominal))
    = InverseMarking.Kind.None ->
  deriveConformanceForInvertible nominal Copyable s = Returned None s.
Proof.
  intros Hinv Hpos. rewrite (derive_no_positive nominal s Hpos), Hinv.
  reflexivity.
Qed.

(** C4. When both the positive and the inverse marking of D are Explicit,
    one call of [deriveConformanceForInvertible(D, Copyable)] emits exactly
    one diagnostic, [noncopyable_but_copyable] for D at the location of the
    inverse marking, and returns a conformance whose declaring context is D
    itself; no extension and no top-level declaration is created, and the
    conformance is the one registration the call makes on D. *)
Theorem C4_contradiction_diagnosed_once
    (Harena : ArenaRespectsContext)
    (nominal : NominalTypeDecl Ty) (s : ASTState Ty) :
  InverseMarking.getKind (getPositive (getNoncopyableMarking nominal))
    = InverseMarking.Kind.Explicit ->
  InverseMarking.getKind (getInverse (getNoncopyableMarking nominal))
    = InverseMarking.Kind.Explicit ->
  exists c s',
    deriveConformanceForInvertible nominal Copyable s = Returned (Some c) s'
    /\ Diags s' =
         Diags s ++
         [ {| diagLoc :=
                InverseMarking.getLoc (getInverse (getNoncopyableMarking nominal));
              diagID := noncopyable_but_copyable (nominalID nominal);
              diagFixIts := [] |} ]
    /\ confDeclContext c = DC_Nominal (nominalID nominal)
    /\ Conformances s' = Conformances s ++ [(nominalID nominal, (c, true))]
    /\ Extensions s' = Extensions s
    /\ TopLevelDecls s' = TopLevelDecls s.
Proof.
  intros Hpos Hinv.
  rewrite (derive_explicit_positive nominal s Hpos), Hinv.
  cbn [InverseMarking.Kind.eqb]. unfold bind at 1. cbn [diagnose modify].
  unfold bind at 1. rewrite generateConformance_run. cbn [ret].
  eexists; eexists; split; [reflexivity|].
  cbn [Diags Conformances Extensions TopLevelDecls].
  rewrite setSourceKind_declContext, Harena. repeat split; reflexivity.
Qed.

(** C3 (amended). When the inverse marking of D is Inferred and its positive
    marking is None, [deriveConformanceForInvertible(D, Copyable)] returns a
    conformance declared in a new implicit extension of D, for every D. The
    generic signature of the extension is what [buildGenericSignature] makes
    of the signature of D, no added parameters, and the list holding, for
    each generic parameter of D in order, the one requirement that this
    parameter conforms to the protocol. The extension is added to the
    extensions of D. It is added to the top-level declarations of the
    synthesized file when the module-scope context of D is a file unit, and
    to no top-level declarations otherwise. *)
Theorem C3_conditional_conformance
    (Harena : ArenaRespectsContext)
    (nominal : NominalTypeDecl Ty) (s : ASTState Ty) :
  InverseMarking.getKind (getInverse (getNoncopyableMarking nominal))
    = InverseMarking.Kind.Inferred ->
  InverseMarking.getKind (getPositive (getNoncopyableMarking nominal))
    = InverseMarking.Kind.None ->
  exists c ext s',
    deriveConformanceForInvertible nominal Copyable s = Returned (Some c) s'
    /\ confDeclContext c = DC_Extension (extID ext)
    /\ isImplicit ext = true
    /\ getExtendedNominal ext = Some (nominalID nominal)
    /\ extInherited ext = [protoDeclaredInterfaceType (getProtocol Copyable)]
    /\ extGenericSignature ext =
         Some (buildGenericSignature (getGenericSignature nominal) []
                 (map (fun param =>
                         {| reqKind := Conformance; reqFirst := param;
                            reqSecond :=
                              protoDeclaredInterfaceType (getProtocol Copyable) |})
                      (getGenericParams (getGenericSignature nominal))))
    /\ Extensions s' = Extensions s ++ [(nominalID nominal, ext)]
    /\ TopLevelDecls s' =
         TopLevelDecls s ++
         match dyn_cast_FileUnit (getModuleScopeContext nominal) with
         | Some file => [(file, ext)]
         | None => []
         end
    /\ Conformances s' = Conformances s ++ [(nominalID nominal, (c, true))].
Proof.
  intros Hinv Hpos.
  rewrite (derive_no_positive nominal s Hpos), Hinv.
  unfold bind. rewrite generateConditionalConformance_run. cbn [ret].
  eexists; exists (conditionalExtension nominal (getProtocol Copyable) (NextDeclID s));
    eexists; split; [reflexivity|].
  cbn [Extensions TopLevelDecls Conformances].
  rewrite setSourceKind_declContext, Harena.
  repeat split; reflexivity.
Qed.

(** C1 (amended). The derivation keeps no record of earlier calls, and a
    call does not change the marking it decides on, so a second call for
    (D, Copyable) on the state the first one left takes the same row of
    the decision table.
    - positive None, inverse Explicit: the call returns absent and changes
      nothing, so calling again gives the same.
    - positive None, inverse Inferred: each call creates a new implicit
      extension of D with an identity of its own, adds it to the extensions
      of D and, when D is in a file unit, to the top-level declarations, and
      registers and returns a conformance declared in that extension; the
      two conformances differ.
    - positive Inferred: the call stops in the assertion.
    - the other rows: each call returns a conformance declared in D itself
      and creates no extension and no top-level declaration. When
      [getNormalConformance] hands out again the conformance of an equal
      request, the second call returns the same conformance as the first,
      and that one conformance is what both calls pass to
      [registerProtocolConformance]. *)
Theorem C1_derive_twice
    (Harena : ArenaRespectsContext)
    (nominal : NominalTypeDecl Ty) (s : ASTState Ty) :
  let D := nominalID nominal in
  match InverseMarking.getKind (getPositive (getNoncopyableMarking nominal)),
        InverseMarking.getKind (getInverse (getNoncopyableMarking nominal)) with
  | InverseMarking.Kind.None, InverseMarking.Kind.Explicit =>
      deriveConformanceForInvertible nominal Copyable s = Returned None s
  | InverseMarking.Kind.None, InverseMarking.Kind.Inferred =>
      exists c1 s1 c2 s2 e1 e2,
        deriveConformanceForInvertible nominal Copyable s = Returned (Some c1) s1
        /\ deriveConformanceForInvertible nominal Copyable s1 = Returned (Some c2) s2
        /\ confDeclContext c1 = DC_Extension (extID e1)
        /\ confDeclContext c2 = DC_Extension (extID e2)
        /\ extID e1 <> extID e2
        /\ c1 <> c2
        /\ isImplicit e1 = true
        /\ isImplicit e2 = true
        /\ getExtendedNominal e1 = Some D
        /\ getExtendedNominal e2 = Some D
        /\ Extensions s2 = Extensions s ++ [(D, e1); (D, e2)]
        /\ TopLevelDecls s2 =
             TopLevelDecls s ++ topLevelEntry nominal e1 ++ topLevelEntry nominal e2
        /\ Conformances s2 = Conformances s ++ [(D, (c1, true)); (D, (c2, true))]
  | InverseMarking.Kind.Inferred, _ =>
      exists msg s', deriveConformanceForInvertible nominal Copyable s = Fatal msg s'
  | _, _ =>
      exists c1 s1 c2 s2,
        deriveConformanceForInvertible nominal Copyable s = Returned (Some c1) s1
        /\ deriveConformanceForInvertible nominal Copyable s1 = Returned (Some c2) s2
        /\ confDeclContext c1 = DC_Nominal D
        /\ confDeclContext c2 = DC_Nominal D
        /\ Extensions s2 = Extensions s
        /\ TopLevelDecls s2 = TopLevelDecls s
        /\ Conformances s2 = Conformances s ++ [(D, (c1, true)); (D, (c2, true))]
        /\ (ArenaReusesConformance ->
            c2 = c1
            /\ Conformances s2 = Conformances s ++ [(D, (c1, true)); (D, (c1, true))])
  end.
Proof.
  intro D; subst D.
  destruct (InverseMarking.getKind (getPositive (getNoncopyableMarking nominal)))
    eqn:Hpos;
  destruct (InverseMarking.getKind (getInverse (getNoncopyableMarking nominal)))
    eqn:Hinv.
  all: try (rewrite !(derive_no_positive nominal _ Hpos), Hinv).
  all: try (rewrite !(derive_explicit_positive nominal _ Hpos), Hinv;
            cbn [InverseMarking.Kind.eqb]).
  all: try (unfold deriveConformanceForInvertible;
            cbn [getInvertibleProtocolKind]; rewrite Hpos;
            cbn [InverseMarking.Kind.eqb assert]; unfold bind, fatal;
            eexists; eexists; reflexivity).
  all: try reflexivity.
  all: unfold bind, diagnose, modify, ret;
    rewrite ?generateConformance_run, ?generateConditionalConformance_run;
    cbn zeta.
  all: try (do 4 eexists; split; [reflexivity|];
            rewrite ?(derive_no_positive nominal _ Hpos), ?Hinv;
            rewrite ?(derive_explicit_positive nominal _ Hpos), ?Hinv;
            cbn [InverseMarking.Kind.eqb];
            unfold bind, diagnose, modify, ret;
            rewrite ?generateConformance_run; cbn zeta;
            split; [reflexivity|];
            cbn [Extensions TopLevelDecls Conformances Arena];
            rewrite !setSourceKind_declContext, !Harena, <- !app_assoc;
            repeat (split; [reflexivity|]);
            intros Hreuse; rewrite Hreuse; split; reflexivity).
  (* the conditional row *)
  eexists; eexists; eexists; eexists.
  exists (conditionalExtension nominal (getProtocol Copyable) (NextDeclID s)).
  exists (conditionalExtension nominal (getProtocol Copyable) (S (NextDeclID s))).
  split; [reflexivity|].
  rewrite (derive_no_positive nominal _ Hpos), Hinv.
  unfold bind, ret. rewrite generateConditionalConformance_run. cbn zeta.
  split; [reflexivity|].
  cbn [Extensions TopLevelDecls Conformances Arena NextDeclID
       conditionalExtension extID getExtendedNominal isImplicit].
  rewrite !setSourceKind_declContext, !Harena, <- !app_assoc.
  repeat split; try reflexivity.
  - apply Nat.neq_succ_diag_r.
  - intro Heq.
    apply (f_equal (@confDeclContext Ty)) in Heq.
    rewrite !setSourceKind_declContext, !Harena in Heq.
    injection Heq as Heq. exact (Nat.neq_succ_diag_r _ Heq).
Qed.
End DeriveFacts.

(** * Properties of the storage visitor *)

Section VisitFacts.
Context {Ty : Type} {AST : ASTServices Ty}.

(** C7. On a protocol declaration [StorageVisitor::visit] returns false,
    and it leaves the state of the visitor as it was, whatever the visitor
    is: no call operator of the visitor runs. *)
Theorem C7_protocol_visit_returns_false
    (St : Type) (V : StorageVisitor St) (dc : DeclContext)
    (nominal : NominalTypeDecl Ty) (s : St) :
  nominalKind nominal = ProtocolDeclKind ->
  visit V dc nominal s = Returned false s.
Proof.
  intros Hkind. unfold visit, isa_StructDecl, isa_ClassDecl, isa_ProtocolDecl,
    isa_BuiltinTupleDecl.
  rewrite Hkind. reflexivity.
Qed.

Section Recording.
Variable stop : ValueDecl Ty -> Ty -> bool.
Variable dc : DeclContext.

Lemma visitStoredProperties_recorded (properties : list (VarDecl Ty)) :
  forall log, Forall (visitedEntry dc) log ->
    exists b log',
      visitStoredProperties (recorder stop) dc properties log = Returned b log'
      /\ Forall (visitedEntry dc) log'.
Proof.
  induction properties as [|property rest IH]; intros log Hlog.
  - exists false, log. split; [reflexivity | assumption].
  - cbn [visitStoredProperties]. unfold bind. cbn [recorder visitProperty].
    set (t := getReferenceStorageReferent _).
    assert (Hlog' : Forall (visitedEntry dc) (log ++ [(VD_Var property, t)])).
    { apply Forall_app. split; [assumption|].
      constructor; [reflexivity | constructor]. }
    destruct (stop (VD_Var property) t).
    + eexists; eexists. split; [reflexivity | exact Hlog'].
    + exact (IH _ Hlog').
Qed.

Lemma visitElements_recorded (elements : list (EnumElementDecl Ty)) :
  forall log, Forall (visitedEntry dc) log ->
    exists b log',
      visitElements (recorder stop) dc elements log = Returned b log'
      /\ Forall (visitedEntry dc) log'.
Proof.
  induction elements as [|element rest IH]; intros log Hlog.
  - exists false, log. split; [reflexivity | assumption].
  - cbn [visitElements].
    destruct (getArgumentInterfaceType element) as [a|] eqn:Harg.
    + unfold bind. cbn [recorder visitElement].
      assert (Hlog' : Forall (visitedEntry dc)
                (log ++ [(VD_EnumElement element, mapTypeIntoContext dc a)])).
      { apply Forall_app. split; [assumption|].
        constructor; [|constructor].
        exists a. split; [exact Harg | reflexivity]. }
      destruct (stop (VD_EnumElement element) (mapTypeIntoContext dc a)).
      * eexists; eexists. split; [reflexivity | exact Hlog'].
      * exact (IH _ Hlog').
    + exact (IH _ Hlog).
Qed.

Lemma visitAllCases_recorded (cases : list (EnumCaseDecl Ty)) :
  forall log, Forall (visitedEntry dc) log ->
    exists b log',
      visitAllCases (recorder stop) dc cases log = Returned b log'
      /\ Forall (visitedEntry dc) log'.
Proof.
  induction cases as [|caseDecl rest IH]; intros log Hlog.
  - exists false, log. split; [reflexivity | assumption].
  - cbn [visitAllCases]. unfold bind.
    destruct (visitElements_recorded (getElements caseDecl) Hlog)
      as (b & log' & Hrun & Hlog').
    rewrite Hrun. destruct b.
    + exists true, log'. split; [reflexivity | assumption].
    + exact (IH _ Hlog').
Qed.

Lemma visit_recorded (nominal : NominalTypeDecl Ty) :
  forall log, Forall (visitedEntry dc) log ->
    exists b log',
      visit (recorder stop) dc nominal log = Returned b log'
      /\ Forall (visitedEntry dc) log'.
Proof.
  intros log Hlog. unfold visit.
  destruct (isa_StructDecl nominal || isa_ClassDecl nominal).
  - apply visitStoredProperties_recorded; assumption.
  - destruct (nominalKind nominal) eqn:Hkind;
      try (apply visitAllCases_recorded; assumption);
      unfold isa_ProtocolDecl, isa_BuiltinTupleDecl; rewrite Hkind;
      exists false, log; (split; [reflexivity | assumption]).
Qed.
End Recording.

(** What the loops compute, as the recording visitor sees it: the walk
    always returns, and every call passes, for a stored property, the
    interface type mapped into the context, then r-value normalised, then
    with its reference-storage wrapper removed; for an enum element, the
    argument interface type mapped into the context. *)
Lemma recorder_sees_what_the_loops_compute
    (stop : ValueDecl Ty -> Ty -> bool) (dc : DeclContext)
    (nominal : NominalTypeDecl Ty) :
  exists b log,
    visit (recorder stop) dc nominal [] = Returned b log
    /\ forall m t, In (m, t) log ->
         match m with
         | VD_Var property =>
             t = getReferenceStorageReferent
                   (getRValueType
                      (mapTypeIntoContext dc (varInterfaceType property)))
         | VD_EnumElement element =>
             exists argumentInterfaceType,
               getArgumentInterfaceType element = Some argumentInterfaceType
               /\ t = mapTypeIntoContext dc argumentInterfaceType
         end.
Proof.
  destruct (visit_recorded stop nominal (dc := dc) (log := []))
  as (b & log & Hrun & Hlog).
  - constructor.
  - exists b, log. split; [exact Hrun|].
    intros m t Hin. rewrite Forall_forall in Hlog.
    exact (Hlog (m, t) Hin).
Qed.
(** A visitor that never stops is called on every storage member, in the
    order of [storageMembers]. *)
Section VisitsAll.
Variable dc : DeclContext.

Lemma visitStoredProperties_all (properties : list (VarDecl Ty)) :
  forall log, exists calls,
    visitStoredProperties (recorder (fun _ _ => false)) dc properties log
      = Returned false (log ++ calls)
    /\ map fst calls = map (@VD_Var Ty) properties.
Proof.
  induction properties as [|property rest IH]; intros log.
  - exists []. rewrite app_nil_r. split; reflexivity.
  - cbn [visitStoredProperties]. unfold bind. cbn [recorder visitProperty].
    destruct (IH (log ++ [(VD_Var property,
                getReferenceStorageReferent
                  (getRValueType
                     (mapTypeIntoContext dc (varInterfaceType property))))]))
      as (calls & Hrun & Hcalls).
    eexists (_ :: calls). rewrite Hrun, <- app_assoc. split; [reflexivity|].
    cbn [map fst]. rewrite Hcalls. reflexivity.
Qed.

Lemma visitElements_all (elements : list (EnumElementDecl Ty)) :
  forall log, exists calls,
    visitElements (recorder (fun _ _ => false)) dc elements log
      = Returned false (log ++ calls)
    /\ map fst calls
       = map (@VD_EnumElement Ty) (filter (@hasAssociatedValues Ty) elements).
Proof.
  induction elements as [|element rest IH]; intros log.
  - exists []. rewrite app_nil_r. split; reflexivity.
  - cbn [visitElements filter]. unfold hasAssociatedValues at 1.
    destruct (getArgumentInterfaceType element) as [a|]; [|apply IH].
    unfold bind. cbn [recorder visitElement].
    destruct (IH (log ++ [(VD_EnumElement element, mapTypeIntoContext dc a)]))
      as (calls & Hrun & Hcalls).
    eexists (_ :: calls). rewrite Hrun, <- app_assoc. split; [reflexivity|].
    cbn [map fst]. rewrite Hcalls. reflexivity.
Qed.

Lemma visitAllCases_all (cases : list (EnumCaseDecl Ty)) :
  forall log, exists calls,
    visitAllCases (recorder (fun _ _ => false)) dc cases log
      = Returned false (log ++ calls)
    /\ map fst calls
       = flat_map (fun c => map (@VD_EnumElement Ty)
                              (filter (@hasAssociatedValues Ty) (getElements c)))
                  cases.
Proof.
  induction cases as [|caseDecl rest IH]; intros log.
  - exists []. rewrite app_nil_r. split; reflexivity.
  - cbn [visitAllCases flat_map]. unfold bind.
    destruct (visitElements_all (getElements caseDecl) log)
      as (calls1 & Hrun1 & Hcalls1).
    rewrite Hrun1.
    destruct (IH (log ++ calls1)) as (calls2 & Hrun2 & Hcalls2).
    exists (calls1 ++ calls2). rewrite Hrun2, <- app_assoc.
    split; [reflexivity|].
    rewrite map_app, Hcalls1, Hcalls2. reflexivity.
Qed.

Lemma visit_calls_on_every_storage_member (nominal : NominalTypeDecl Ty) :
  exists calls,
    visit (recorder (fun _ _ => false)) dc nominal [] = Returned false calls
    /\ map fst calls = storageMembers nominal.
Proof.
  unfold visit, storageMembers, isa_StructDecl, isa_ClassDecl,
    getStoredProperties, isa_ProtocolDecl, isa_BuiltinTupleDecl.
  destruct (nominalKind nominal) as [ps|ps|cases| |]; cbn [orb negb assert].
  - exact (visitStoredProperties_all ps []).
  - exact (visitStoredProperties_all ps []).
  - exact (visitAllCases_all cases []).
  - exists []. split; reflexivity.
  - exists []. split; reflexivity.
Qed.
End VisitsAll.
End VisitFacts.

(** * Properties of the Copyable conformance checker *)

Section CheckFacts.
Context {Ty : Type} {AST : ASTServices Ty}.

(** C6. For a conformance to Copyable whose type is a class,
    [checkCopyableConformance] returns true and leaves the state as it was:
    no diagnostic is emitted. This holds for every choice of the stored
    properties and of the types that lack Copyable, so no stored property is
    looked at: a property of a type without Copyable that had been visited
    would have been diagnosed. *)
Theorem C6_class_conformance_is_valid
    (conformance : NormalProtocolConformance Ty)
    (nom : NominalTypeDecl Ty) (s : ASTState Ty) :
  isSpecificProtocol (confProtocol conformance) Copyable = true ->
  getAnyNominal (confType conformance) = Some nom ->
  isa_ClassDecl nom = true ->
  checkCopyableConformance conformance s = Returned true s.
Proof.
  intros Hproto Hnom Hclass. unfold checkCopyableConformance.
  rewrite Hproto, Hnom, Hclass. reflexivity.
Qed.

(** C8 (the code at a built-in tuple declaration).
    [checkCopyableConformance] stops in [llvm_unreachable], but
    [StorageVisitor::visit] does not stop: its closing assertion holds for
    every declaration, and the walk returns false with the state of the
    visitor as it was. *)
Theorem C8_builtin_tuple_in_checker_and_in_visit
    (nominal : NominalTypeDecl Ty) :
  nominalKind nominal = BuiltinTupleDecl ->
  (forall (conformance : NormalProtocolConformance Ty) (s : ASTState Ty),
      isSpecificProtocol (confProtocol conformance) Copyable = true ->
      getAnyNominal (confType conformance) = Some nominal ->
      checkCopyableConformance conformance s = Fatal "TODO: BuiltinTupleDecl" s)
  /\ (forall (St : Type) (V : StorageVisitor St) (dc : DeclContext) (s : St),
        visit V dc nominal s = Returned false s).
Proof.
  intros Hkind. split.
  - intros conformance s Hproto Hnom. unfold checkCopyableConformance.
    rewrite Hproto, Hnom.
    unfold isa_ClassDecl, isa_ProtocolDecl, isa_BuiltinTupleDecl.
    rewrite Hkind. reflexivity.
  - intros St V dc s.
    unfold visit, isa_StructDecl, isa_ClassDecl, isa_ProtocolDecl,
      isa_BuiltinTupleDecl.
    rewrite Hkind. reflexivity.
Qed.

(** The closing assertion of [visit] cannot fail. *)
Lemma visit_assertion_always_holds (nominal : NominalTypeDecl Ty) :
  negb (isa_ProtocolDecl nominal) || negb (isa_BuiltinTupleDecl nominal) = true.
Proof.
  unfold isa_ProtocolDecl, isa_BuiltinTupleDecl.
  destruct (nominalKind nominal); reflexivity.
Qed.

(** C9. When the offending type is not an archetype and resolves to a nominal
    declaration with a valid source location whose inverse marking is None,
    [tryEmitContainmentFixits] for Copyable stops in the assertion
    "how did it become noncopyable then?", after the [add_inverse] diagnostic
    for the enclosing nominal. *)
Theorem C9_unmarked_offender_is_fatal
    (enclosingNom : NominalTypeDecl Ty) (nonConformingTy : Ty)
    (nominal : NominalTypeDecl Ty) (s : ASTState Ty) :
  getAs_ArchetypeType nonConformingTy = None ->
  getAnyNominal nonConformingTy = Some nominal ->
  isValid (nominalLoc nominal) = true ->
  InverseMarking.getKind (getInverse (getNoncopyableMarking nominal))
    = InverseMarking.Kind.None ->
  exists s',
    tryEmitContainmentFixits enclosingNom nonConformingTy Copyable s
      = Fatal "how did it become noncopyable then?" s'
    /\ Diags s' =
         Diags s ++
         [ {| diagLoc := nominalLoc enclosingNom;
              diagID := add_inverse (nominalID enclosingNom) "Copyable";
              diagFixIts := [addConformanceFixIt enclosingNom Copyable true] |} ].
Proof.
  intros Harch Hnom Hloc Hkind. unfold tryEmitContainmentFixits.
  rewrite Harch, Hnom, Hloc, Hkind.
  cbn [KnownProtocolKind_eqb assert getProtocolName].
  unfold bind, diagnose, modify, fatal.
  eexists. split; reflexivity.
Qed.

(** A member whose type contains an error is not a violation. *)
Lemma check_hasError (Nominal : NominalTypeDecl Ty) (DC : DeclContext)
    (Diagnosing : bool) (storage : ValueDecl Ty) (type : Ty) (isEnum : bool)
    (s : ASTState Ty) :
  hasError type = true ->
  check Nominal DC Diagnosing storage type isEnum s = Returned false s.
Proof. intros Herr. unfold check. rewrite Herr. reflexivity. Qed.

Lemma check_noncopyableOnlyIfError (Nominal : NominalTypeDecl Ty)
    (DC : DeclContext) (Diagnosing : bool) (storage : ValueDecl Ty) (type : Ty)
    (isEnum : bool) (s : ASTState Ty) :
  noncopyableOnlyIfError DC type ->
  check Nominal DC Diagnosing storage type isEnum s = Returned false s.
Proof.
  intros Honly. unfold check.
  destruct (hasError type) eqn:Herr; [reflexivity|].
  destruct (isNoncopyable type DC) eqn:Hnc; [|reflexivity].
  specialize (Honly Hnc). congruence.
Qed.

Section Harmless.
Variable nom : NominalTypeDecl Ty.
Variable dc : DeclContext.
Variable diagnosing : bool.

Lemma visitStoredProperties_harmless (properties : list (VarDecl Ty))
    (s : ASTState Ty) :
  (forall property t, In property properties ->
     passedType dc (VD_Var property) t -> noncopyableOnlyIfError dc t) ->
  visitStoredProperties (HasNoncopyable nom dc diagnosing) dc properties s
    = Returned false s.
Proof.
  induction properties as [|property rest IH]; intros Hall; [reflexivity|].
  cbn [visitStoredProperties]. unfold bind. cbn [HasNoncopyable visitProperty].
  rewrite check_noncopyableOnlyIfError.
  - apply IH. intros p t Hin. apply Hall. right; exact Hin.
  - apply (Hall property); [left; reflexivity | reflexivity].
Qed.

Lemma visitElements_harmless (elements : list (EnumElementDecl Ty))
    (s : ASTState Ty) :
  (forall element t, In element elements ->
     passedType dc (VD_EnumElement element) t -> noncopyableOnlyIfError dc t) ->
  visitElements (HasNoncopyable nom dc diagnosing) dc elements s
    = Returned false s.
Proof.
  induction elements as [|element rest IH]; intros Hall; [reflexivity|].
  cbn [visitElements].
  assert (Hrest : forall e t, In e rest ->
            passedType dc (VD_EnumElement e) t -> noncopyableOnlyIfError dc t).
  { intros e t Hin. apply Hall. right; exact Hin. }
  destruct (getArgumentInterfaceType element) as [a|] eqn:Harg;
    [|exact (IH Hrest)].
  unfold bind. cbn [HasNoncopyable visitElement].
  rewrite check_noncopyableOnlyIfError; [exact (IH Hrest)|].
  apply (Hall element); [left; reflexivity|].
  exists a. split; [exact Harg | reflexivity].
Qed.

Lemma visitAllCases_harmless (cases : list (EnumCaseDecl Ty)) (s : ASTState Ty) :
  (forall caseDecl element t, In caseDecl cases ->
     In element (getElements caseDecl) ->
     passedType dc (VD_EnumElement element) t -> noncopyableOnlyIfError dc t) ->
  visitAllCases (HasNoncopyable nom dc diagnosing) dc cases s = Returned false s.
Proof.
  induction cases as [|caseDecl rest IH]; intros Hall; [reflexivity|].
  cbn [visitAllCases]. unfold bind.
  rewrite visitElements_harmless.
  - apply IH. intros c e t Hin. apply Hall. right; exact Hin.
  - intros e t Hin. apply (Hall caseDecl); [left; reflexivity | exact Hin].
Qed.
End Harmless.

(** C10. The per-member check of the checker returns false on every storage
    member whose type contains an error, with the state as it was: nothing is
    diagnosed and the walk goes on. Hence a conformance to Copyable of a
    nominal that is not the built-in tuple, each of whose storage members has
    a type that lacks Copyable only if that type contains an error, passes
    [checkCopyableConformance] without a diagnostic. *)
Theorem C10_erroneous_storage_is_ignored
    (conformance : NormalProtocolConformance Ty)
    (nom : NominalTypeDecl Ty) (s : ASTState Ty) :
  isSpecificProtocol (confProtocol conformance) Copyable = true ->
  getAnyNominal (confType conformance) = Some nom ->
  isa_BuiltinTupleDecl nom = false ->
  (forall m t, In m (storageMembers nom) ->
     passedType (confDeclContext conformance) m t ->
     isNoncopyable t (confDeclContext conformance) = true ->
     hasError t = true) ->
  (forall Nominal DC Diagnosing storage type isEnum (s0 : ASTState Ty),
      hasError type = true ->
      check Nominal DC Diagnosing storage type isEnum s0 = Returned false s0)
  /\ checkCopyableConformance conformance s = Returned true s.
Proof.
  intros Hproto Hnom Htuple Hall. split.
  - intros; apply check_hasError; assumption.
  - unfold checkCopyableConformance. rewrite Hproto, Hnom, Htuple.
    cbn [assert]. unfold bind at 1. cbn [ret].
    destruct (isa_ClassDecl nom) eqn:Hclass; [reflexivity|].
    destruct (isa_ProtocolDecl nom) eqn:Hprotocol; [reflexivity|].
    unfold bind, visit. unfold storageMembers in Hall.
    unfold isa_StructDecl, isa_ClassDecl, getStoredProperties.
    unfold isa_ClassDecl in Hclass. unfold isa_ProtocolDecl in Hprotocol.
    unfold isa_BuiltinTupleDecl in Htuple.
    destruct (nominalKind nom) as [ps|ps|cases| |]; try discriminate.
    + cbn [orb]. rewrite visitStoredProperties_harmless; [reflexivity|].
      intros property t Hin Hpassed Hnc.
      apply (Hall (VD_Var property) t); auto using in_map.
    + cbn [orb]. cbv iota. rewrite visitAllCases_harmless; [reflexivity|].
      intros caseDecl element t Hcase Helem Hpassed Hnc.
      apply (Hall (VD_EnumElement element) t); auto.
      apply in_flat_map. exists caseDecl. split; [exact Hcase|].
      apply in_map, filter_In. split; [exact Helem|].
      destruct Hpassed as (a & Harg & _).
      unfold hasAssociatedValues. rewrite Harg. reflexivity.
Qed.
End CheckFacts.

(** * The theorems on the sample instance *)

Module SampleFacts.
Import Sample.

Lemma DeclContext_eqb_eq (a b : DeclContext) :
  DeclContext_eqb a b = true -> a = b.
Proof.
  destruct a, b; cbn; intros H; try discriminate;
    apply Nat.eqb_eq in H; congruence.
Qed.

Lemma arena_respects_context : ArenaRespectsContext (AST := services).
Proof.
  intros arena ty proto loc dc st isUnchecked.
  cbn [getNormalConformance services]. unfold s_getNormalConformance.
  destruct (find _ arena) as [c|] eqn:Hfind; [|reflexivity].
  apply find_some in Hfind. destruct Hfind as [_ Hkey].
  apply andb_prop in Hkey. destruct Hkey as [_ Hdc].
  exact (DeclContext_eqb_eq _ _ Hdc).
Qed.

Lemma DeclContext_eqb_refl (a : DeclContext) : DeclContext_eqb a a = true.
Proof. destruct a; cbn; apply Nat.eqb_refl. Qed.

Lemma find_app_none (A : Type) (p : A -> bool) (l l' : list A) :
  find p l = None -> find p (l ++ l') = find p l'.
Proof.
  induction l as [|x rest IH]; [reflexivity|]. cbn.
  destruct (p x); [discriminate | exact IH].
Qed.

Lemma arena_reuses_conformance : ArenaReusesConformance (AST := services).
Proof.
  intros arena ty proto loc dc st isUnchecked.
  cbn [getNormalConformance services]. unfold s_getNormalConformance.
  destruct (find _ arena) as [c|] eqn:Hfind; cbn [snd].
  - rewrite Hfind. reflexivity.
  - rewrite (find_app_none _ _ _ Hfind). cbn [find confProtocol confDeclContext].
    rewrite Nat.eqb_refl, DeclContext_eqb_refl. reflexivity.
Qed.

Lemma C2_witness :
  InverseMarking.getKind (getInverse (getNoncopyableMarking Token))
    = InverseMarking.Kind.Explicit
  /\ InverseMarking.getKind (getPositive (getNoncopyableMarking Token))
      = InverseMarking.Kind.None
  /\ deriveConformanceForInvertible Token Copyable initial = Returned None initial.
Proof.
  split; [reflexivity|]. split; [reflexivity|].
  apply (C2_explicit_inverse_returns_absent Token initial); reflexivity.
Defined.

Lemma C4_witness :
  exists c s',
    deriveConformanceForInvertible Both Copyable initial = Returned (Some c) s'
    /\ Diags s' =
         [ {| diagLoc := Some 57; diagID := noncopyable_but_copyable 5;
              diagFixIts := [] |} ]
    /\ confDeclContext c = DC_Nominal 5
    /\ Conformances s' = [(5, (c, true))]
    /\ Extensions s' = []
    /\ TopLevelDecls s' = [].
Proof.
  apply (C4_contradiction_diagnosed_once arena_respects_context Both initial);
    reflexivity.
Defined.

Lemma C3_witness :
  (exists c ext s',
     deriveConformanceForInvertible Box Copyable initial = Returned (Some c) s'
     /\ confDeclContext c = DC_Extension (extID ext)
     /\ isImplicit ext = true
     /\ getExtendedNominal ext = Some 3
     /\ extInherited ext = [TProtocol 100]
     /\ extGenericSignature ext =
          Some {| getGenericParams := [TGenericParam 0];
                  getRequirements :=
                    [ {| reqKind := Conformance; reqFirst := TGenericParam 0;
                         reqSecond := TProtocol 100 |} ] |}
     /\ Extensions s' = [(3, ext)]
     /\ TopLevelDecls s' = [(0, ext)]
     /\ Conformances s' = [(3, (c, true))])
  /\ (exists c ext s',
        deriveConformanceForInvertible Pair Copyable initial = Returned (Some c) s'
        /\ confDeclContext c = DC_Extension (extID ext)
        /\ isImplicit ext = true
        /\ getExtendedNominal ext = Some 9
        /\ extInherited ext = [TProtocol 100]
        /\ extGenericSignature ext =
             Some {| getGenericParams := [TGenericParam 0; TGenericParam 1];
                     getRequirements :=
                       [ {| reqKind := Conformance; reqFirst := TGenericParam 0;
                            reqSecond := TProtocol 100 |};
                         {| reqKind := Conformance; reqFirst := TGenericParam 1;
                            reqSecond := TProtocol 100 |} ] |}
        /\ Extensions s' = [(9, ext)]
        /\ TopLevelDecls s' = []
        /\ Conformances s' = [(9, (c, true))]).
Proof.
  split.
  - apply (C3_conditional_conformance arena_respects_context Box initial);
      reflexivity.
  - apply (C3_conditional_conformance arena_respects_context Pair initial);
      reflexivity.
Defined.

Lemma C1_witness :
  (exists c1 s1 c2 s2 e1 e2,
     deriveConformanceForInvertible Box Copyable initial = Returned (Some c1) s1
     /\ deriveConformanceForInvertible Box Copyable s1 = Returned (Some c2) s2
     /\ confDeclContext c1 = DC_Extension (extID e1)
     /\ confDeclContext c2 = DC_Extension (extID e2)
     /\ extID e1 <> extID e2
     /\ c1 <> c2
     /\ isImplicit e1 = true
     /\ isImplicit e2 = true
     /\ getExtendedNominal e1 = Some 3
     /\ getExtendedNominal e2 = Some 3
     /\ Extensions s2 = [(3, e1); (3, e2)]
     /\ TopLevelDecls s2 = [(0, e1); (0, e2)]
     /\ Conformances s2 = [(3, (c1, true)); (3, (c2, true))])
  /\ (exists c1 s1 c2 s2,
        deriveConformanceForInvertible Plain Copyable initial = Returned (Some c1) s1
        /\ deriveConformanceForInvertible Plain Copyable s1 = Returned (Some c2) s2
        /\ c2 = c1
        /\ Extensions s2 = []
        /\ TopLevelDecls s2 = []
        /\ Conformances s2 = [(1, (c1, true)); (1, (c1, true))])
  /\ (exists c1 s1 c2 s2,
        deriveConformanceForInvertible Both Copyable initial = Returned (Some c1) s1
        /\ deriveConformanceForInvertible Both Copyable s1 = Returned (Some c2) s2
        /\ c2 = c1
        /\ Extensions s2 = []
        /\ TopLevelDecls s2 = []
        /\ Conformances s2 = [(5, (c1, true)); (5, (c1, true))]).
Proof.
  split; [exact (C1_derive_twice arena_respects_context Box initial)|].
  split.
  - destruct (C1_derive_twice arena_respects_context Plain initial)
      as (c1 & s1 & c2 & s2 & Hrun1 & Hrun2 & _ & _ & Hext & Htop & _ & Hsame).
    destruct (Hsame arena_reuses_conformance) as [Heq Hreg].
    exists c1, s1, c2, s2. repeat split; assumption.
  - destruct (C1_derive_twice arena_respects_context Both initial)
      as (c1 & s1 & c2 & s2 & Hrun1 & Hrun2 & _ & _ & Hext & Htop & _ & Hsame).
    destruct (Hsame arena_reuses_conformance) as [Heq Hreg].
    exists c1, s1, c2, s2. repeat split; assumption.
Defined.

Lemma C6_witness :
  isa_ClassDecl Ref = true
  /\ isNoncopyable (TNominal 2) (DC_Nominal 4) = true
  /\ checkCopyableConformance (conformanceOf Ref) initial = Returned true initial.
Proof.
  split; [reflexivity|]. split; [reflexivity|].
  apply (C6_class_conformance_is_valid (conformanceOf Ref) (nom := Ref) initial);
    reflexivity.
Defined.

Lemma C7_witness :
  nominalKind Proto = ProtocolDeclKind
  /\ visit (recorder (fun _ _ => true)) (DC_Nominal 6) Proto [] = Returned false [].
Proof.
  split; [reflexivity|].
  apply (C7_protocol_visit_returns_false
           (recorder (fun _ _ => true)) (DC_Nominal 6) Proto []).
  reflexivity.
Defined.

Lemma C8_witness :
  checkCopyableConformance (conformanceOf Tuple) initial
    = Fatal "TODO: BuiltinTupleDecl" initial
  /\ visit (HasNoncopyable Tuple (DC_Nominal 7) true) (DC_Nominal 7) Tuple initial
     = Returned false initial.
Proof.
  destruct (C8_builtin_tuple_in_checker_and_in_visit Tuple eq_refl)
    as [Hchecker Hvisit].
  split.
  - apply Hchecker; reflexivity.
  - apply Hvisit.
Defined.

Lemma C9_witness :
  getAnyNominal (TNominal 1) = Some Plain
  /\ InverseMarking.getKind (getInverse (getNoncopyableMarking Plain))
      = InverseMarking.Kind.None
  /\ exists s',
       tryEmitContainmentFixits Holder (TNominal 1) Copyable initial
         = Fatal "how did it become noncopyable then?" s'
       /\ Diags s' =
            [ {| diagLoc := Some 110; diagID := add_inverse 11 "Copyable";
                 diagFixIts := [fixItInsert (Some 115) ": ~Copyable"] |} ].
Proof.
  split; [reflexivity|]. split; [reflexivity|].
  apply (C9_unmarked_offender_is_fatal Holder (TNominal 1) (nominal := Plain) initial);
    reflexivity.
Defined.

Lemma C10_witness :
  isNoncopyable TError (DC_Nominal 10) = true
  /\ check Broken (DC_Nominal 10) true (VD_Var (field "bad" 103 TError)) TError
        false initial = Returned false initial
  /\ checkCopyableConformance (conformanceOf Broken) initial = Returned true initial.
Proof.
  split; [reflexivity|].
  destruct (C10_erroneous_storage_is_ignored (conformanceOf Broken) (nom := Broken)
              initial) as [Hcheck Hvalid].
  - reflexivity.
  - reflexivity.
  - reflexivity.
  - intros m t Hin Hpassed _.
    destruct Hin as [Hm|[]]. subst m. cbn in Hpassed. subst t. reflexivity.
  - split; [apply Hcheck; reflexivity | exact Hvalid].
Defined.

(** C1 fails as stated. [Box] has no positive marking and an inferred inverse
    marking. Two calls of the derivation, the second on the state the first
    one left, return two different conformances, and the second call adds a
    second extension, a second top-level declaration and a second registered
    conformance, although the arena of this instance returns the conformance
    it already has whenever the protocol and the context are the same. *)
Lemma C1_counterexample :
  exists c1 s1 c2 s2,
    deriveConformanceForInvertible Box Copyable initial = Returned (Some c1) s1
    /\ deriveConformanceForInvertible Box Copyable s1 = Returned (Some c2) s2
    /\ c2 <> c1
    /\ List.length (Extensions s1) = 1 /\ List.length (Extensions s2) = 2
    /\ List.length (TopLevelDecls s1) = 1 /\ List.length (TopLevelDecls s2) = 2
    /\ List.length (Conformances s1) = 1 /\ List.length (Conformances s2) = 2.
Proof.
  do 4 eexists.
  split; [vm_compute; reflexivity|].
  split; [vm_compute; reflexivity|].
  split; [discriminate|].
  repeat split.
Qed.

(** C3 fails as stated. [Pair] has no positive marking and an inferred
    inverse marking, and its module-scope context is not a file unit: the
    derivation returns a conformance declared in a new extension of [Pair],
    and no top-level declaration is added. *)
Lemma C3_counterexample :
  InverseMarking.getKind (getInverse (getNoncopyableMarking Pair))
    = InverseMarking.Kind.Inferred
  /\ InverseMarking.getKind (getPositive (getNoncopyableMarking Pair))
      = InverseMarking.Kind.None
  /\ exists c ext s',
       deriveConformanceForInvertible Pair Copyable initial = Returned (Some c) s'
       /\ confDeclContext c = DC_Extension (extID ext)
       /\ Extensions s' = [(9, ext)]
       /\ TopLevelDecls s' = [].
Proof.
  split; [reflexivity|]. split; [reflexivity|].
  do 3 eexists.
  split; [vm_compute; reflexivity|].
  split; [|split; reflexivity].
  reflexivity.
Qed.

(** The assumption on payload types cannot be dropped for an arbitrary
    type language: were the payload type of an enum element a
    reference-storage type, as that of [held] in [Slot] is made to be here,
    the visitor would be called with the wrapper still on. *)
Lemma recorder_passes_a_wrapped_payload_through :
  let held := payload "held" 84 (Some (TReferenceStorage (TNominal 1))) in
  let dc := DC_Nominal 8 in
  visit (recorder neverStop) dc Slot []
    = Returned false [(VD_EnumElement held, TReferenceStorage (TNominal 1))]
  /\ getArgumentInterfaceType held = Some (TReferenceStorage (TNominal 1))
  /\ getRValueType
       (getReferenceStorageReferent
          (mapTypeIntoContext dc (TReferenceStorage (TNominal 1))))
     = TNominal 1
  /\ TReferenceStorage (TNominal 1) <> TNominal 1.
Proof.
  cbv zeta. split; [reflexivity|]. split; [reflexivity|].
  split; [reflexivity | discriminate].
Qed.
End SampleFacts.

(** * Further properties of the derivation *)

Section DeriveRows.
Context {Ty : Type} {AST : ASTServices Ty}.

Lemma derive_inferred_positive (nominal : NominalTypeDecl Ty) (s : ASTState Ty) :
  InverseMarking.getKind (getPositive (getNoncopyableMarking nominal))
    = InverseMarking.Kind.Inferred ->
  deriveConformanceForInvertible nominal Copyable s =
    Fatal "marking.getPositive().getKind() == InverseMarking::Kind::None" s.
Proof.
  intros Hpos. unfold deriveConformanceForInvertible.
  cbn [getInvertibleProtocolKind]. rewrite Hpos. reflexivity.
Qed.

(** Case analysis on the two markings, with the run of the derivation
    written out in each row. *)
Ltac derive_rows nominal s Hpos Hinv :=
  destruct (InverseMarking.getKind (getPositive (getNoncopyableMarking nominal)))
    eqn:Hpos;
  destruct (InverseMarking.getKind (getInverse (getNoncopyableMarking nominal)))
    eqn:Hinv;
  first [ rewrite (derive_no_positive nominal s Hpos), Hinv
        | rewrite (derive_explicit_positive nominal s Hpos), Hinv
        | rewrite (derive_inferred_positive nominal s Hpos) ];
  cbn [InverseMarking.Kind.eqb];
  unfold bind, diagnose, modify, ret;
  rewrite ?generateConformance_run, ?generateConditionalConformance_run;
  cbn zeta.

(** X1. The outcome of the derivation for Copyable tells the row of the
    decision table: it stops in the assertion exactly when the positive
    marking is Inferred, it returns absent exactly when the positive marking
    is None and the inverse marking is Explicit, and in both cases the state
    is left as it was. *)
Theorem derive_outcome_tells_the_row
    (nominal : NominalTypeDecl Ty) (s : ASTState Ty) :
  let positive := InverseMarking.getKind (getPositive (getNoncopyableMarking nominal)) in
  let inverse := InverseMarking.getKind (getInverse (getNoncopyableMarking nominal)) in
  match deriveConformanceForInvertible nominal Copyable s with
  | Fatal _ s' => positive = InverseMarking.Kind.Inferred /\ s' = s
  | Returned None s' =>
      positive = InverseMarking.Kind.None
      /\ inverse = InverseMarking.Kind.Explicit /\ s' = s
  | Returned (Some _) _ =>
      positive <> InverseMarking.Kind.Inferred
      /\ ~ (positive = InverseMarking.Kind.None
            /\ inverse = InverseMarking.Kind.Explicit)
  end.
Proof.
  cbv zeta. derive_rows nominal s Hpos Hinv.
  all: repeat split; try reflexivity; try discriminate.
  all: try (intros [H1 H2]; discriminate).
Qed.

(** X2. A conformance the derivation returns has been marked as synthesized
    with no implying conformance, and the call has registered it on D as
    synthesized: it is the one entry the call adds to the registrations. *)
Theorem derive_registers_what_it_returns
    (nominal : NominalTypeDecl Ty) (s s' : ASTState Ty)
    (c : NormalProtocolConformance Ty) :
  deriveConformanceForInvertible nominal Copyable s = Returned (Some c) s' ->
  confSourceKind c = Synthesized
  /\ confImplying c = None
  /\ Conformances s' = Conformances s ++ [(nominalID nominal, (c, true))].
Proof.
  derive_rows nominal s Hpos Hinv; intros Hrun; try discriminate.
  all: injection Hrun as Hc Hs; subst c s'; repeat split; reflexivity.
Qed.

(** X3. The derivation emits a diagnostic only for the contradiction: in
    every outcome the diagnostics are those before the call, followed by the
    one [noncopyable_but_copyable] when both markings are Explicit and by
    nothing otherwise. *)
Theorem derive_diagnoses_only_the_contradiction
    (nominal : NominalTypeDecl Ty) (s : ASTState Ty) :
  let marking := getNoncopyableMarking nominal in
  Diags (finalState (deriveConformanceForInvertible nominal Copyable s)) =
    Diags s ++
    (if InverseMarking.Kind.eqb (InverseMarking.getKind (getPositive marking))
          InverseMarking.Kind.Explicit
        && InverseMarking.Kind.eqb (InverseMarking.getKind (getInverse marking))
             InverseMarking.Kind.Explicit
     then [ {| diagLoc := InverseMarking.getLoc (getInverse marking);
               diagID := noncopyable_but_copyable (nominalID nominal);
               diagFixIts := [] |} ]
     else []).
Proof.
  cbv zeta. derive_rows nominal s Hpos Hinv.
  all: cbn [finalState Diags InverseMarking.Kind.eqb andb];
    rewrite ?app_nil_r; reflexivity.
Qed.

(** X4. An explicit Copyable takes precedence over any inverse marking, and
    without any marking Copyable is inferred: when the positive marking is
    Explicit, or both markings are None, the derivation returns a conformance
    declared in D itself and creates nothing else: no extension, no top-level
    declaration, no cached extended type, no new declaration identity. *)
Theorem derive_unconditional_rows
    (Harena : ArenaRespectsContext)
    (nominal : NominalTypeDecl Ty) (s : ASTState Ty) :
  InverseMarking.getKind (getPositive (getNoncopyableMarking nominal))
    = InverseMarking.Kind.Explicit
  \/ (InverseMarking.getKind (getPositive (getNoncopyableMarking nominal))
        = InverseMarking.Kind.None
      /\ InverseMarking.getKind (getInverse (getNoncopyableMarking nominal))
           = InverseMarking.Kind.None) ->
  exists c s',
    deriveConformanceForInvertible nominal Copyable s = Returned (Some c) s'
    /\ confDeclContext c = DC_Nominal (nominalID nominal)
    /\ Extensions s' = Extensions s
    /\ TopLevelDecls s' = TopLevelDecls s
    /\ ExtendedTypeCache s' = ExtendedTypeCache s
    /\ NextDeclID s' = NextDeclID s.
Proof.
  intros Hrow.
  derive_rows nominal s Hpos Hinv.
  all: try (exfalso; destruct Hrow as [H|[H1 H2]]; discriminate).
  all: eexists; eexists; split; [reflexivity|];
    cbn [Extensions TopLevelDecls ExtendedTypeCache NextDeclID];
    rewrite setSourceKind_declContext, Harena; repeat split; reflexivity.
Qed.

(** X5. In the conditional row the extension is created and bound whatever
    the module-scope context of D is: it gets the next free declaration
    identity, no source location and the declaration context of D as parent,
    the evaluator's cache maps it to the declared interface type of D, and no
    diagnostic is emitted. Only the entry in the top-level declarations
    depends on the module-scope context being a file unit. *)
Theorem derive_conditional_row_binds_the_extension
    (nominal : NominalTypeDecl Ty) (s : ASTState Ty) :
  InverseMarking.getKind (getPositive (getNoncopyableMarking nominal))
    = InverseMarking.Kind.None ->
  InverseMarking.getKind (getInverse (getNoncopyableMarking nominal))
    = InverseMarking.Kind.Inferred ->
  exists c ext s',
    deriveConformanceForInvertible nominal Copyable s = Returned (Some c) s'
    /\ extID ext = NextDeclID s
    /\ NextDeclID s' = S (NextDeclID s)
    /\ extLoc ext = None
    /\ extParent ext = getDeclContext nominal
    /\ Extensions s' = Extensions s ++ [(nominalID nominal, ext)]
    /\ ExtendedTypeCache s' =
         ExtendedTypeCache s ++ [(extID ext, getDeclaredInterfaceType nominal)]
    /\ TopLevelDecls s' =
         TopLevelDecls s ++
         match dyn_cast_FileUnit (getModuleScopeContext nominal) with
         | Some file => [(file, ext)]
         | None => []
         end
    /\ Diags s' = Diags s.
Proof.
  intros Hpos Hinv.
  rewrite (derive_no_positive nominal s Hpos), Hinv.
  unfold bind, ret. rewrite generateConditionalConformance_run. cbn zeta.
  eexists.
  exists (conditionalExtension nominal (getProtocol Copyable) (NextDeclID s)).
  eexists. split; [reflexivity|].
  repeat split; reflexivity.
Qed.

(** X6. The derivation keeps the identities of extensions apart: if every
    extension in the state has an identity below the next free one and no
    two of them share an identity, the same holds in the state the
    derivation ends in. *)
Theorem derive_keeps_extension_identities_distinct
    (nominal : NominalTypeDecl Ty) (s : ASTState Ty) :
  extensionsAllocated s ->
  NoDup (extensionIDs s) ->
  let s' := finalState (deriveConformanceForInvertible nominal Copyable s) in
  extensionsAllocated s' /\ NoDup (extensionIDs s').
Proof.
  intros Halloc Hnodup. cbv zeta.
  derive_rows nominal s Hpos Hinv.
  all: cbn [finalState]; try (split; assumption).
  unfold extensionsAllocated, extensionIDs in *.
  cbn [Extensions NextDeclID]. split.
  - apply Forall_app. split.
    + eapply Forall_impl; [|exact Halloc]. intros entry Hlt. cbn beta in *. lia.
    + constructor; [cbn; lia | constructor].
  - rewrite map_app. cbn [map snd conditionalExtension extID].
    apply NoDup_app; [exact Hnodup | constructor; [intros [] | constructor] |].
    intros id Hin [Heq|[]]. subst id.
    apply in_map_iff in Hin. destruct Hin as (entry & Hid & Hin).
    rewrite Forall_forall in Halloc. specialize (Halloc entry Hin).
    cbn beta in Halloc. lia.
Qed.
End DeriveRows.

(** * Properties of the containment fix-its *)

Section FixitFacts.
Context {Ty : Type} {AST : ASTServices Ty}.

Lemma KnownProtocolKind_eqb_eq (a b : KnownProtocolKind) :
  KnownProtocolKind_eqb a b = true <-> a = b.
Proof. destruct a, b; cbn; split; congruence. Qed.

Lemma onlyDiagnosed_diagnose (s : ASTState Ty) (loc : SourceLoc) (id : Diag Ty)
    (fixits : list FixIt) (added : list (Diagnostic Ty)) (s0 : ASTState Ty) :
  onlyDiagnosed s0 s added ->
  onlyDiagnosed s0 (finalState (diagnose loc id fixits s))
    (added ++ [ {| diagLoc := loc; diagID := id; diagFixIts := fixits |} ]).
Proof.
  unfold onlyDiagnosed. intros (Hd & Ha & Hn & He & Hc & Ht & Hx).
  cbn. rewrite Hd, app_assoc. repeat split; assumption.
Qed.

Lemma onlyDiagnosed_refl (s : ASTState Ty) : onlyDiagnosed s s [].
Proof. unfold onlyDiagnosed. rewrite app_nil_r. repeat split; reflexivity. Qed.

Lemma tryEmitContainmentFixits_effect
    (enclosingNom : NominalTypeDecl Ty) (nonConformingTy : Ty)
    (kp : KnownProtocolKind) (s : ASTState Ty) :
  exists notes,
    onlyDiagnosed s
      (finalState (tryEmitContainmentFixits enclosingNom nonConformingTy kp s))
      (addInverseDiagnostic enclosingNom kp :: notes)
    /\ List.length notes <= 1.
Proof.
  unfold tryEmitContainmentFixits, bind at 1.
  cbn [diagnose modify].
  set (s1 := {| Diags := _ |}).
  assert (H1 : onlyDiagnosed s s1 [addInverseDiagnostic enclosingNom kp]).
  { unfold onlyDiagnosed. repeat split; reflexivity. }
  assert (Hstay : forall A (o : Outcome (ASTState Ty) A),
             finalState o = s1 ->
             exists notes,
               onlyDiagnosed s (finalState o)
                 (addInverseDiagnostic enclosingNom kp :: notes)
               /\ List.length notes <= 1).
  { intros A o Ho. exists []. rewrite Ho. split; [exact H1 | cbn; lia]. }
  assert (Hnote : forall loc id,
             exists notes,
               onlyDiagnosed s (finalState (diagnose loc id [] s1))
                 (addInverseDiagnostic enclosingNom kp :: notes)
               /\ List.length notes <= 1).
  { intros loc id. eexists [_]. split; [|cbn; lia].
    exact (onlyDiagnosed_diagnose (s := s1) loc id [] H1). }
  destruct (getAs_ArchetypeType nonConformingTy) as [a|].
  - destruct (getAs_GenericTypeParamType (getInterfaceType a)) as [g|];
      [|apply Hstay; reflexivity].
    destruct (getDecl g) as [d|]; [|apply Hstay; reflexivity].
    destruct (Nat.eqb (getModuleContext d) (getParentModule enclosingNom));
      [apply Hnote | apply Hstay; reflexivity].
  - destruct (KnownProtocolKind_eqb kp Copyable); [|apply Hstay; reflexivity].
    destruct (getAnyNominal nonConformingTy) as [nominal|];
      [|apply Hstay; reflexivity].
    destruct (isValid (nominalLoc nominal)); [|apply Hstay; reflexivity].
    destruct (InverseMarking.getKind (getInverse (getNoncopyableMarking nominal)));
      [apply Hstay; reflexivity | |];
      unfold bind;
      (destruct (isValid (InverseMarking.getLoc
                            (getInverse (getNoncopyableMarking nominal))));
       cbn [assert ret fatal]; [apply Hnote | apply Hstay; reflexivity]).
Qed.

(** X7. Whatever it is given and however it ends, [tryEmitContainmentFixits]
    changes nothing but the diagnostics, and what it adds is the
    [add_inverse] diagnostic for the enclosing nominal, with the fix-it that
    inserts the inverse, followed by at most one note. *)
Theorem tryEmitContainmentFixits_adds_the_fixit_and_one_note_at_most
    (enclosingNom : NominalTypeDecl Ty) (nonConformingTy : Ty)
    (kp : KnownProtocolKind) (s : ASTState Ty) :
  exists notes,
    onlyDiagnosed s
      (finalState (tryEmitContainmentFixits enclosingNom nonConformingTy kp s))
      (addInverseDiagnostic enclosingNom kp :: notes)
    /\ List.length notes <= 1.
Proof. apply tryEmitContainmentFixits_effect. Qed.

Lemma tryEmitContainmentFixits_fatal_cases
    (enclosingNom : NominalTypeDecl Ty) (nonConformingTy : Ty)
    (kp : KnownProtocolKind) (s : ASTState Ty) :
  (exists msg s',
      tryEmitContainmentFixits enclosingNom nonConformingTy kp s = Fatal msg s')
  <->
  (getAs_ArchetypeType nonConformingTy = None
   /\ kp = Copyable
   /\ exists nominal,
        getAnyNominal nonConformingTy = Some nominal
        /\ isValid (nominalLoc nominal) = true
        /\ (InverseMarking.getKind (getInverse (getNoncopyableMarking nominal))
              = InverseMarking.Kind.None
            \/ isValid (InverseMarking.getLoc
                          (getInverse (getNoncopyableMarking nominal))) = false)).
Proof.
  unfold tryEmitContainmentFixits, bind at 1. cbn [diagnose modify].
  set (s1 := {| Diags := _ |}).
  destruct (getAs_ArchetypeType nonConformingTy) as [a|].
  - split.
    + intros (msg & s' & Hrun). exfalso.
      destruct (getAs_GenericTypeParamType (getInterfaceType a)) as [g|];
        [|discriminate].
      destruct (getDecl g) as [d|]; [|discriminate].
      destruct (Nat.eqb (getModuleContext d) (getParentModule enclosingNom));
        discriminate.
    + intros (H & _). discriminate.
  - destruct (KnownProtocolKind_eqb kp Copyable) eqn:Hkp.
    + apply KnownProtocolKind_eqb_eq in Hkp.
      destruct (getAnyNominal nonConformingTy) as [nominal|].
      * destruct (isValid (nominalLoc nominal)) eqn:Hloc.
        -- destruct (InverseMarking.getKind
                       (getInverse (getNoncopyableMarking nominal))) eqn:Hkind;
             unfold bind;
             destruct (isValid (InverseMarking.getLoc
                                  (getInverse (getNoncopyableMarking nominal))))
               eqn:Hmark;
             cbn [assert ret fatal diagnose modify];
             (split;
              [ intros (msg & s' & Hrun); try discriminate;
                repeat split; try assumption;
                exists nominal; repeat split; try assumption; auto
              | intros (_ & _ & n & Hn & _ & Hor); injection Hn as <-;
                try (eexists; eexists; reflexivity);
                destruct Hor; congruence ]).
        -- split; [intros (msg & s' & Hrun); discriminate|].
           intros (_ & _ & n & Hn & Hvalid & _). injection Hn as <-. congruence.
      * split; [intros (msg & s' & Hrun); discriminate|].
        intros (_ & _ & n & Hn & _). discriminate.
    + split; [intros (msg & s' & Hrun); discriminate|].
      intros (_ & Hcopyable & _). subst kp. discriminate.
Qed.

(** X8. [tryEmitContainmentFixits] stops in an assertion exactly when the
    offending type is not an archetype, the protocol is Copyable, and the type
    resolves to a nominal with a valid source location whose inverse marking
    is None or has no valid location. *)
Theorem tryEmitContainmentFixits_fatal_iff
    (enclosingNom : NominalTypeDecl Ty) (nonConformingTy : Ty)
    (kp : KnownProtocolKind) (s : ASTState Ty) :
  (exists msg s',
      tryEmitContainmentFixits enclosingNom nonConformingTy kp s = Fatal msg s')
  <->
  (getAs_ArchetypeType nonConformingTy = None
   /\ kp = Copyable
   /\ exists nominal,
        getAnyNominal nonConformingTy = Some nominal
        /\ isValid (nominalLoc nominal) = true
        /\ (InverseMarking.getKind (getInverse (getNoncopyableMarking nominal))
              = InverseMarking.Kind.None
            \/ isValid (InverseMarking.getLoc
                          (getInverse (getNoncopyableMarking nominal))) = false)).
Proof. apply tryEmitContainmentFixits_fatal_cases. Qed.

(** X9. For an archetype the fix-its never look at a marking and never stop
    in an assertion, for any protocol: after the [add_inverse] diagnostic they
    add one note at the declaration of the generic parameter when the
    interface type of the archetype is a generic parameter with a declaration
    in the module of the enclosing nominal, and nothing otherwise. *)
Theorem tryEmitContainmentFixits_on_archetype
    (enclosingNom : NominalTypeDecl Ty) (nonConformingTy : Ty)
    (kp : KnownProtocolKind) (genericArchetype : ArchetypeType Ty)
    (s : ASTState Ty) :
  getAs_ArchetypeType nonConformingTy = Some genericArchetype ->
  exists s',
    tryEmitContainmentFixits enclosingNom nonConformingTy kp s = Returned tt s'
    /\ onlyDiagnosed s s'
         (addInverseDiagnostic enclosingNom kp ::
          match getAs_GenericTypeParamType (getInterfaceType genericArchetype) with
          | Some genericParamType =>
              match getDecl genericParamType with
              | Some d =>
                  if Nat.eqb (getModuleContext d) (getParentModule enclosingNom)
                  then [ {| diagLoc := gpLoc d;
                            diagID := note_inverse_preventing_conformance
                                        nonConformingTy (getProtocolName kp);
                            diagFixIts := [] |} ]
                  else []
              | None => []
              end
          | None => []
          end).
Proof.
  intros Harch. unfold tryEmitContainmentFixits, bind. cbn [diagnose modify].
  rewrite Harch.
  destruct (getAs_GenericTypeParamType (getInterfaceType genericArchetype)) as [g|].
  2: { eexists. split; [reflexivity|]. unfold onlyDiagnosed. repeat split. }
  destruct (getDecl g) as [d|].
  2: { eexists. split; [reflexivity|]. unfold onlyDiagnosed. repeat split. }
  destruct (Nat.eqb (getModuleContext d) (getParentModule enclosingNom)).
  - eexists. split; [reflexivity|]. unfold onlyDiagnosed.
    cbn [Diags Arena NextDeclID Extensions Conformances TopLevelDecls
         ExtendedTypeCache].
    rewrite <- app_assoc. repeat split.
  - eexists. split; [reflexivity|]. unfold onlyDiagnosed. repeat split.
Qed.

(** X10. For Copyable and a type that is not an archetype and resolves to a
    nominal with a valid source location whose inverse marking is Inferred or
    Explicit and has a valid location, the fix-its return after two
    diagnostics: [add_inverse] for the enclosing nominal, and at the location
    of the marking the note that the nominal is implicitly (Inferred) or
    explicitly (Explicit) not Copyable. *)
Theorem tryEmitContainmentFixits_explains_the_marking
    (enclosingNom : NominalTypeDecl Ty) (nonConformingTy : Ty)
    (nominal : NominalTypeDecl Ty) (s : ASTState Ty) :
  let inverse := getInverse (getNoncopyableMarking nominal) in
  getAs_ArchetypeType nonConformingTy = None ->
  getAnyNominal nonConformingTy = Some nominal ->
  isValid (nominalLoc nominal) = true ->
  InverseMarking.getKind inverse <> InverseMarking.Kind.None ->
  isValid (InverseMarking.getLoc inverse) = true ->
  exists s',
    tryEmitContainmentFixits enclosingNom nonConformingTy Copyable s
      = Returned tt s'
    /\ onlyDiagnosed s s'
         [ addInverseDiagnostic enclosingNom Copyable;
           {| diagLoc := InverseMarking.getLoc inverse;
              diagID :=
                match InverseMarking.getKind inverse with
                | InverseMarking.Kind.Inferred =>
                    note_inverse_preventing_conformance_implicit
                      (nominalID nominal) "Copyable"
                | _ =>
                    note_inverse_preventing_conformance_explicit
                      (nominalID nominal) "Copyable"
                end;
              diagFixIts := [] |} ].
Proof.
  cbv zeta. intros Harch Hnom Hloc Hkind Hmark.
  unfold tryEmitContainmentFixits, bind. cbn [diagnose modify].
  rewrite Harch, Hnom, Hloc. cbn [KnownProtocolKind_eqb].
  destruct (InverseMarking.getKind (getInverse (getNoncopyableMarking nominal)));
    [congruence | |];
    rewrite Hmark; cbn [assert ret];
    (eexists; split; [reflexivity|]); unfold onlyDiagnosed;
    cbn [Diags Arena NextDeclID Extensions Conformances TopLevelDecls
         ExtendedTypeCache getProtocolName];
    rewrite <- app_assoc; repeat split.
Qed.

(** X11. When the type is not an archetype and the protocol is not Copyable,
    or the type resolves to no nominal, or to a nominal without a valid
    source location, the fix-its return after the [add_inverse] diagnostic
    alone: no marking is read and no assertion can fail. *)
Theorem tryEmitContainmentFixits_without_a_located_nominal
    (enclosingNom : NominalTypeDecl Ty) (nonConformingTy : Ty)
    (kp : KnownProtocolKind) (s : ASTState Ty) :
  getAs_ArchetypeType nonConformingTy = None ->
  kp <> Copyable
  \/ getAnyNominal nonConformingTy = None
  \/ (exists nominal, getAnyNominal nonConformingTy = Some nominal
                      /\ isValid (nominalLoc nominal) = false) ->
  exists s',
    tryEmitContainmentFixits enclosingNom nonConformingTy kp s = Returned tt s'
    /\ onlyDiagnosed s s' [addInverseDiagnostic enclosingNom kp].
Proof.
  intros Harch Hcase.
  unfold tryEmitContainmentFixits, bind. cbn [diagnose modify].
  rewrite Harch.
  assert (Hdone : forall s1 : ASTState Ty,
            s1 = finalState (diagnose (nominalLoc enclosingNom)
                               (add_inverse (nominalID enclosingNom)
                                  (getProtocolName kp))
                               [addConformanceFixIt enclosingNom kp true] s) ->
            exists s', Returned (A := unit) tt s1 = Returned tt s'
                       /\ onlyDiagnosed s s' [addInverseDiagnostic enclosingNom kp]).
  { intros s1 ->. eexists. split; [reflexivity|].
    unfold onlyDiagnosed. repeat split. }
  destruct (KnownProtocolKind_eqb kp Copyable) eqn:Hkp;
    [|apply Hdone; reflexivity].
  apply KnownProtocolKind_eqb_eq in Hkp.
  destruct Hcase as [Hne | [Hnone | (nominal & Hnom & Hloc)]].
  - contradiction.
  - rewrite Hnone. apply Hdone; reflexivity.
  - rewrite Hnom, Hloc. apply Hdone; reflexivity.
Qed.
End FixitFacts.

(** * The walk as one loop over the storage entries *)

Section WalkFacts.
Context {Ty : Type} {AST : ASTServices Ty}.

Lemma untilTrue_app (St : Type) (f : ValueDecl Ty -> Ty -> M St bool)
    (l1 l2 : list (ValueDecl Ty * Ty)) (s : St) :
  untilTrue f (l1 ++ l2) s =
    bind (untilTrue f l1)
         (fun stop => if (stop : bool) then ret true else untilTrue f l2) s.
Proof.
  revert s. induction l1 as [|entry rest IH]; intros s; [reflexivity|].
  cbn [app untilTrue]. unfold bind at 1 2 3.
  destruct (f (fst entry) (snd entry) s) as [stop s1|msg s1]; [|reflexivity].
  destruct stop; [reflexivity|].
  rewrite IH. reflexivity.
Qed.

Section OneVisitor.
Variable St : Type.
Variable V : @StorageVisitor Ty St.
Variable dc : DeclContext.

Lemma visitStoredProperties_untilTrue (properties : list (VarDecl Ty)) (s : St) :
  visitStoredProperties V dc properties s
  = untilTrue (callOn V) (map (propertyEntry dc) properties) s.
Proof.
  revert s. induction properties as [|property rest IH]; intros s; [reflexivity|].
  cbn [visitStoredProperties map untilTrue propertyEntry fst snd callOn].
  unfold bind.
  destruct (visitProperty V property _ s) as [stop s1|msg s1]; [|reflexivity].
  destruct stop; [reflexivity | apply IH].
Qed.

Lemma visitElements_untilTrue (elements : list (EnumElementDecl Ty)) (s : St) :
  visitElements V dc elements s
  = untilTrue (callOn V) (elementEntries dc elements) s.
Proof.
  revert s. induction elements as [|element rest IH]; intros s; [reflexivity|].
  cbn [visitElements elementEntries].
  destruct (getArgumentInterfaceType element) as [a|]; [|apply IH].
  cbn [untilTrue fst snd callOn]. unfold bind.
  destruct (visitElement V element _ s) as [stop s1|msg s1]; [|reflexivity].
  destruct stop; [reflexivity | apply IH].
Qed.

Lemma visitAllCases_untilTrue (cases : list (EnumCaseDecl Ty)) (s : St) :
  visitAllCases V dc cases s
  = untilTrue (callOn V)
      (flat_map (fun c => elementEntries dc (getElements c)) cases) s.
Proof.
  revert s. induction cases as [|caseDecl rest IH]; intros s; [reflexivity|].
  cbn [visitAllCases flat_map]. rewrite untilTrue_app.
  unfold bind. rewrite visitElements_untilTrue.
  destruct (untilTrue (callOn V) (elementEntries dc (getElements caseDecl)) s)
    as [stop s1|msg s1]; [|reflexivity].
  destruct stop; [reflexivity | apply IH].
Qed.

Lemma visit_untilTrue (nominal : NominalTypeDecl Ty) (s : St) :
  visit V dc nominal s = untilTrue (callOn V) (storageEntries dc nominal) s.
Proof.
  unfold visit, storageEntries, isa_StructDecl, isa_ClassDecl,
    getStoredProperties, isa_ProtocolDecl, isa_BuiltinTupleDecl.
  destruct (nominalKind nominal) as [ps|ps|cases| |]; cbn [orb negb assert].
  - apply visitStoredProperties_untilTrue.
  - apply visitStoredProperties_untilTrue.
  - apply visitAllCases_untilTrue.
  - reflexivity.
  - reflexivity.
Qed.

(** X12. For every visitor, [StorageVisitor::visit] is one loop over the
    storage entries of the nominal, in declaration order with the types the
    walk substitutes: it calls the visitor on each entry until a call
    returns true, then returns true without further calls; it returns false
    when no call did, in particular for a nominal without storage entries;
    it stops in a fatal error only if a call of the visitor does. *)
Theorem visit_is_one_loop_over_the_storage_entries
    (nominal : NominalTypeDecl Ty) (s : St) :
  visit V dc nominal s = untilTrue (callOn V) (storageEntries dc nominal) s.
Proof. apply visit_untilTrue. Qed.
End OneVisitor.

Lemma untilTrue_recorder (stop : ValueDecl Ty -> Ty -> bool)
    (entries : list (ValueDecl Ty * Ty)) :
  forall log,
    untilTrue (callOn (recorder stop)) entries log =
      Returned (existsb (fun entry => stop (fst entry) (snd entry)) entries)
               (log ++ takeThrough (fun entry => stop (fst entry) (snd entry))
                         entries).
Proof.
  induction entries as [|[m t] rest IH]; intros log.
  - cbn. rewrite app_nil_r. reflexivity.
  - cbn [untilTrue existsb takeThrough fst snd]. unfold bind.
    assert (Hcall : callOn (recorder stop) m t log
                    = Returned (stop m t) (log ++ [(m, t)])).
    { destruct m; reflexivity. }
    rewrite Hcall. destruct (stop m t); [reflexivity|].
    rewrite IH, <- app_assoc. reflexivity.
Qed.

(** X13. The walk stops at the first storage member on which the visitor
    returns true. Observed with the recording visitor: the result is true
    exactly when [stop] holds for some storage entry, and the calls made are
    the storage entries up to and including the first for which [stop]
    holds, in order, each once; the entries after it are not visited. *)
Theorem visit_stops_at_the_first_true
    (stop : ValueDecl Ty -> Ty -> bool) (dc : DeclContext)
    (nominal : NominalTypeDecl Ty) :
  visit (recorder stop) dc nominal [] =
    Returned
      (existsb (fun entry => stop (fst entry) (snd entry))
               (storageEntries dc nominal))
      (takeThrough (fun entry => stop (fst entry) (snd entry))
                   (storageEntries dc nominal)).
Proof.
  rewrite visit_untilTrue.
  exact (untilTrue_recorder stop (storageEntries dc nominal) []).
Qed.
End WalkFacts.

(** * The type the visitor is called with *)

Section PassedTypes.
Context {Ty : Type} {AST : ASTServices Ty}.




End PassedTypes.

(** * The verdict and the report of the checker *)

Section VerdictFacts.
Context {Ty : Type} {AST : ASTServices Ty}.

Lemma callOn_HasNoncopyable (nom : NominalTypeDecl Ty) (dc : DeclContext)
    (diagnosing : bool) (m : ValueDecl Ty) (t : Ty) :
  callOn (HasNoncopyable nom dc diagnosing) m t
  = check nom dc diagnosing m t (isEnumMember m).
Proof. destruct m; reflexivity. Qed.

Lemma check_not_offending (nom : NominalTypeDecl Ty) (dc : DeclContext)
    (diagnosing : bool) (m : ValueDecl Ty) (t : Ty) (isEnum : bool)
    (s : ASTState Ty) :
  offending dc (m, t) = false ->
  check nom dc diagnosing m t isEnum s = Returned false s.
Proof.
  unfold offending, check. cbn [snd].
  destruct (hasError t); [reflexivity|].
  destruct (isNoncopyable t dc); [discriminate | reflexivity].
Qed.

Lemma check_offending_silent (nom : NominalTypeDecl Ty) (dc : DeclContext)
    (m : ValueDecl Ty) (t : Ty) (isEnum : bool) (s : ASTState Ty) :
  offending dc (m, t) = true ->
  check nom dc false m t isEnum s = Returned true s.
Proof.
  unfold offending, check. cbn [snd].
  destruct (hasError t); [discriminate|].
  destruct (isNoncopyable t dc); [reflexivity | discriminate].
Qed.

(** What the diagnosing check does on an offending member. *)
Lemma check_offending_diagnosing (nom : NominalTypeDecl Ty) (dc : DeclContext)
    (m : ValueDecl Ty) (t : Ty) (s : ASTState Ty) :
  offending dc (m, t) = true ->
  exists notes,
    onlyDiagnosed s
      (finalState (check nom dc true m t (isEnumMember m) s))
      (memberDiagnostic nom m t :: addInverseDiagnostic nom Copyable :: notes)
    /\ List.length notes <= 1
    /\ (forall b s', check nom dc true m t (isEnumMember m) s = Returned b s' ->
                     b = true)
    /\ ((exists msg s', check nom dc true m t (isEnumMember m) s = Fatal msg s')
        <-> unexplainedOffender t).
Proof.
  intros Hoff.
  set (s1 := finalState
               (diagnose (valueLoc m)
                  (noncopyable_type_member_in_copyable t (isEnumMember m)
                     (valueName m) (nominalID nom)) [] s)).
  assert (Hcheck : check nom dc true m t (isEnumMember m) s =
                   match tryEmitContainmentFixits nom t Copyable s1 with
                   | Returned _ s2 => Returned true s2
                   | Fatal msg s2 => Fatal msg s2
                   end).
  { unfold offending in Hoff. unfold check. cbn [snd] in Hoff.
    destruct (hasError t); [discriminate|].
    destruct (isNoncopyable t dc); [reflexivity | discriminate]. }
  rewrite Hcheck. clear Hcheck.
  destruct (tryEmitContainmentFixits_effect nom t Copyable s1)
    as (notes & Heff & Hlen).
  pose proof (tryEmitContainmentFixits_fatal_cases nom t Copyable s1) as Hfatal.
  assert (Hs1 : forall s2,
            onlyDiagnosed s1 s2 (addInverseDiagnostic nom Copyable :: notes) ->
            onlyDiagnosed s s2
              (memberDiagnostic nom m t :: addInverseDiagnostic nom Copyable
                 :: notes)).
  { intros s2 (Hd & Ha & Hn & He & Hc & Ht & Hx). unfold onlyDiagnosed.
    rewrite Hd, Ha, Hn, He, Hc, Ht, Hx. subst s1. cbn. rewrite <- app_assoc.
    repeat split. }
  exists notes.
  destruct (tryEmitContainmentFixits nom t Copyable s1) as [u s2|msg s2].
  - split; [exact (Hs1 _ Heff)|]. split; [exact Hlen|]. split.
    + intros b s' Hrun. injection Hrun as <- _. reflexivity.
    + split; [intros (m0 & s0 & Hrun); discriminate|].
      intros (Harch & Hrest). exfalso.
      assert (Hex : exists msg s', Returned (St := ASTState Ty) u s2 = Fatal msg s').
      { apply Hfatal. repeat split; assumption. }
      destruct Hex as (m0 & s0 & Hrun). discriminate.
  - split; [exact (Hs1 _ Heff)|]. split; [exact Hlen|]. split.
    + intros b s' Hrun. discriminate.
    + split; [|intros _; eexists; eexists; reflexivity].
      intros _.
      assert (Hex : exists m0 s0, Fatal (A := unit) msg s2 = Fatal m0 s0)
        by (eexists; eexists; reflexivity).
      apply Hfatal in Hex. destruct Hex as (Harch & _ & Hrest).
      split; assumption.
Qed.

(** The walk of the diagnosing visitor is the check of the first offending
    entry. *)
Lemma untilTrue_HasNoncopyable (nom : NominalTypeDecl Ty) (dc : DeclContext)
    (diagnosing : bool) (entries : list (ValueDecl Ty * Ty)) (s : ASTState Ty) :
  untilTrue (callOn (HasNoncopyable nom dc diagnosing)) entries s =
    match find (offending dc) entries with
    | None => Returned false s
    | Some entry =>
        check nom dc diagnosing (fst entry) (snd entry)
          (isEnumMember (fst entry)) s
    end.
Proof.
  induction entries as [|[m t] rest IH]; [reflexivity|].
  cbn [untilTrue find fst snd]. rewrite callOn_HasNoncopyable.
  destruct (offending dc (m, t)) eqn:Hoff.
  - unfold bind. cbn [fst snd].
    destruct (check nom dc diagnosing m t (isEnumMember m) s) as [stop s1|msg s1]
      eqn:Hrun; [|reflexivity].
    destruct stop; [reflexivity|].
    exfalso. destruct diagnosing.
    + destruct (check_offending_diagnosing nom dc m t s Hoff)
        as (notes & _ & _ & Htrue & _).
      specialize (Htrue _ _ Hrun). discriminate.
    + rewrite (check_offending_silent nom dc m t _ s Hoff) in Hrun. discriminate.
  - unfold bind at 1. rewrite (check_not_offending nom dc _ m t _ s Hoff).
    exact IH.
Qed.

Lemma find_none_existsb (A : Type) (p : A -> bool) (l : list A) :
  find p l = None -> existsb p l = false.
Proof.
  induction l as [|x rest IH]; [reflexivity|]. cbn.
  destruct (p x); [discriminate | exact IH].
Qed.

Lemma find_some_existsb (A : Type) (p : A -> bool) (l : list A) (x : A) :
  find p l = Some x -> p x = true /\ existsb p l = true.
Proof.
  intros Hfind. destruct (find_some _ _ Hfind) as [Hin Hp].
  split; [exact Hp|]. apply existsb_exists. exists x. split; assumption.
Qed.

(** X14. In its non-diagnosing mode the visitor of the checker is a pure
    test: the walk leaves the state as it was and returns whether some
    storage entry has a type without error that lacks Copyable. *)
Theorem silent_walk_decides_without_writing
    (nom nominal : NominalTypeDecl Ty) (dc : DeclContext) (s : ASTState Ty) :
  visit (HasNoncopyable nom dc false) dc nominal s
  = Returned (existsb (offending dc) (storageEntries dc nominal)) s.
Proof.
  rewrite visit_untilTrue, untilTrue_HasNoncopyable.
  destruct (find (offending dc) (storageEntries dc nominal)) as [[m t]|] eqn:Hfind.
  - destruct (find_some_existsb _ _ Hfind) as [Hoff Hex].
    rewrite Hex. cbn [fst snd]. apply check_offending_silent. exact Hoff.
  - rewrite (find_none_existsb _ _ Hfind). reflexivity.
Qed.

(** X15. The walk of the checker's visitor comes down to one check: when no
    storage entry is offending it returns false and leaves the state as it
    was, and otherwise it does exactly what the check of the first offending
    entry does. The entries before it leave no trace and the entries after it
    are never checked. *)
Theorem walk_is_the_check_of_the_first_offender
    (nom nominal : NominalTypeDecl Ty) (dc : DeclContext) (diagnosing : bool)
    (s : ASTState Ty) :
  visit (HasNoncopyable nom dc diagnosing) dc nominal s =
    match find (offending dc) (storageEntries dc nominal) with
    | None => Returned false s
    | Some entry =>
        check nom dc diagnosing (fst entry) (snd entry)
          (isEnumMember (fst entry)) s
    end.
Proof. rewrite visit_untilTrue. apply untilTrue_HasNoncopyable. Qed.

(** The checker on a nominal whose storage is walked. *)
Lemma checkCopyableConformance_walks
    (conformance : NormalProtocolConformance Ty) (nom : NominalTypeDecl Ty)
    (s : ASTState Ty) :
  isSpecificProtocol (confProtocol conformance) Copyable = true ->
  getAnyNominal (confType conformance) = Some nom ->
  isa_ClassDecl nom = false ->
  isa_ProtocolDecl nom = false ->
  isa_BuiltinTupleDecl nom = false ->
  checkCopyableConformance conformance s =
    match find (offending (confDeclContext conformance))
               (storageEntries (confDeclContext conformance) nom) with
    | None => Returned true s
    | Some entry =>
        match check nom (confDeclContext conformance) true (fst entry)
                (snd entry) (isEnumMember (fst entry)) s with
        | Returned stop s' => Returned (negb stop) s'
        | Fatal msg s' => Fatal msg s'
        end
    end.
Proof.
  intros Hproto Hnom Hclass Hprotocol Htuple. unfold checkCopyableConformance.
  rewrite Hproto, Hnom, Hclass, Hprotocol, Htuple.
  cbn [assert]. unfold bind, ret.
  rewrite visit_untilTrue, untilTrue_HasNoncopyable.
  destruct (find _ _); reflexivity.
Qed.

Lemma protocol_has_no_storage_entries (dc : DeclContext) (nom : NominalTypeDecl Ty) :
  isa_ProtocolDecl nom = true -> storageEntries dc nom = [].
Proof.
  unfold isa_ProtocolDecl, storageEntries.
  destruct (nominalKind nom); try discriminate; reflexivity.
Qed.

(** X16. For a conformance to Copyable of a nominal that is neither a class
    nor the built-in tuple, the checker passes, leaving the state as it was,
    exactly when no storage entry is offending. Otherwise it never returns
    true, and what it adds to the state is the report on the first offending
    entry alone: the diagnostic naming that member, the [add_inverse]
    diagnostic with the fix-it on the nominal, and at most one note; it stops
    in an assertion exactly when the fix-its cannot explain that entry. *)
Theorem checkCopyableConformance_reports_the_first_offender
    (conformance : NormalProtocolConformance Ty) (nom : NominalTypeDecl Ty)
    (s : ASTState Ty) :
  let dc := confDeclContext conformance in
  isSpecificProtocol (confProtocol conformance) Copyable = true ->
  getAnyNominal (confType conformance) = Some nom ->
  isa_ClassDecl nom = false ->
  isa_BuiltinTupleDecl nom = false ->
  match find (offending dc) (storageEntries dc nom) with
  | None => checkCopyableConformance conformance s = Returned true s
  | Some entry =>
      (forall b s', checkCopyableConformance conformance s = Returned b s' ->
                    b = false)
      /\ ((exists msg s', checkCopyableConformance conformance s = Fatal msg s')
          <-> unexplainedOffender (snd entry))
      /\ exists notes,
           List.length notes <= 1
           /\ onlyDiagnosed s (finalState (checkCopyableConformance conformance s))
                (memberDiagnostic nom (fst entry) (snd entry)
                   :: addInverseDiagnostic nom Copyable :: notes)
  end.
Proof.
  cbv zeta. intros Hproto Hnom Hclass Htuple.
  destruct (isa_ProtocolDecl nom) eqn:Hprotocol.
  - rewrite (protocol_has_no_storage_entries _ nom Hprotocol). cbn [find].
    unfold checkCopyableConformance.
    rewrite Hproto, Hnom, Hclass, Hprotocol. reflexivity.
  - rewrite (checkCopyableConformance_walks conformance s
               Hproto Hnom Hclass Hprotocol Htuple).
    destruct (find _ _) as [[m t]|] eqn:Hfind; [|reflexivity].
    cbn [fst snd].
    destruct (find_some_existsb _ _ Hfind) as [Hoff _].
    destruct (check_offending_diagnosing nom (confDeclContext conformance) m t s Hoff)
      as (notes & Heff & Hlen & Htrue & Hfatal).
    destruct (check nom (confDeclContext conformance) true m t (isEnumMember m) s)
      as [stop s1|msg s1].
    + split; [|split].
      * intros b s' Hrun. injection Hrun as <- _.
        rewrite (Htrue stop s1 eq_refl). reflexivity.
      * split; [intros (m0 & s0 & Hrun); discriminate|].
        intros Hun. apply Hfatal in Hun. destruct Hun as (m0 & s0 & Hrun).
        discriminate.
      * exists notes. split; [exact Hlen | exact Heff].
    + split; [|split].
      * intros b s' Hrun. discriminate.
      * split; [|intros _; eexists; eexists; reflexivity].
        intros _. apply Hfatal. eexists; eexists; reflexivity.
      * exists notes. split; [exact Hlen | exact Heff].
Qed.

(** X17. Whatever conformance it is given and however it ends, the checker
    changes nothing but the diagnostics, and it adds at most three of them:
    the conformance arena, the registered conformances, the extensions, the
    top-level declarations and the evaluator's cache are as before. *)
Theorem checkCopyableConformance_only_diagnoses
    (conformance : NormalProtocolConformance Ty) (s : ASTState Ty) :
  exists added,
    onlyDiagnosed s (finalState (checkCopyableConformance conformance s)) added
    /\ List.length added <= 3.
Proof.
  assert (Hsame : forall A (o : Outcome (ASTState Ty) A),
            finalState o = s ->
            exists added, onlyDiagnosed s (finalState o) added
                          /\ List.length added <= 3).
  { intros A o ->. exists []. split; [apply onlyDiagnosed_refl | cbn; lia]. }
  destruct (isSpecificProtocol (confProtocol conformance) Copyable) eqn:Hproto.
  2: { unfold checkCopyableConformance. rewrite Hproto. apply Hsame. reflexivity. }
  destruct (getAnyNominal (confType conformance)) as [nom|] eqn:Hnom.
  2: { unfold checkCopyableConformance. rewrite Hproto, Hnom.
       apply Hsame. reflexivity. }
  destruct (isa_ClassDecl nom) eqn:Hclass.
  { unfold checkCopyableConformance. rewrite Hproto, Hnom, Hclass.
    apply Hsame. reflexivity. }
  destruct (isa_ProtocolDecl nom) eqn:Hprotocol.
  { unfold checkCopyableConformance. rewrite Hproto, Hnom, Hclass, Hprotocol.
    apply Hsame. reflexivity. }
  destruct (isa_BuiltinTupleDecl nom) eqn:Htuple.
  { unfold checkCopyableConformance.
    rewrite Hproto, Hnom, Hclass, Hprotocol, Htuple. apply Hsame. reflexivity. }
  rewrite (checkCopyableConformance_walks conformance s
             Hproto Hnom Hclass Hprotocol Htuple).
  destruct (find _ _) as [[m t]|] eqn:Hfind; [|apply Hsame; reflexivity].
  cbn [fst snd].
  destruct (find_some_existsb _ _ Hfind) as [Hoff _].
  destruct (check_offending_diagnosing nom (confDeclContext conformance) m t s Hoff)
    as (notes & Heff & Hlen & _).
  eexists. split.
  - destruct (check nom (confDeclContext conformance) true m t (isEnumMember m) s);
      exact Heff.
  - cbn [List.length]. lia.
Qed.
End VerdictFacts.

(** * Properties of the noncopyable query *)

Section QueryFacts.
Context {Ty : Type} {Q : ConformanceQueries Ty}.

(** X18. [IsNoncopyableRequest::evaluate] writes nothing, and it stops in a
    fatal error exactly when the type it is given still has a type parameter
    or the context has no Copyable protocol. The test for type parameters is
    made on the type as given, before a pack expansion is replaced by its
    pattern. *)
Theorem IsNoncopyableRequest_fatal_iff (St : Type) (type : Ty) (s : St) :
  finalState (IsNoncopyableRequest_evaluate type s) = s
  /\ ((exists msg s', IsNoncopyableRequest_evaluate type s = Fatal msg s')
      <-> (hasTypeParameter type = true \/ ctx_getProtocol Copyable = None)).
Proof.
  unfold IsNoncopyableRequest_evaluate, bind.
  destruct (hasTypeParameter type); cbn [negb assert fatal ret].
  - split; [reflexivity|]. split; [auto|].
    intros _. eexists; eexists; reflexivity.
  - destruct (ctx_getProtocol Copyable) as [copyable|];
      cbn [llvm_unreachable fatal ret finalState].
    + split; [reflexivity|]. split.
      * intros (msg & s' & Hrun). discriminate.
      * intros [H|H]; discriminate.
    + split; [reflexivity|]. split; [auto|].
      intros _. eexists; eexists; reflexivity.
Qed.

(** X19. A pack expansion is noncopyable exactly when its pattern is: for a
    pack expansion without type parameters whose canonical pattern type is
    not a pack expansion itself and has no type parameters, the request
    gives the same outcome on the expansion as on the canonical pattern. *)
Theorem IsNoncopyableRequest_pack_expansion_as_its_pattern
    (St : Type) (type : Ty) (pet : PackExpansionType Ty) (s : St) :
  let pattern := getCanonicalType (getPatternType pet) in
  getAs_PackExpansionType type = Some pet ->
  getAs_PackExpansionType pattern = None ->
  hasTypeParameter type = false ->
  hasTypeParameter pattern = false ->
  IsNoncopyableRequest_evaluate type s = IsNoncopyableRequest_evaluate pattern s.
Proof.
  cbv zeta. intros Hpack Hpattern Htype Hparam.
  unfold IsNoncopyableRequest_evaluate.
  rewrite Hpack, Hpattern, Htype, Hparam. reflexivity.
Qed.
End QueryFacts.

(** * Properties of the attribute loop of the alloc_box parser *)

Module AllocBoxFacts.
Import AllocBox.

Lemma fold_attributeStep (attrs : list (string * SourceLoc)) :
  forall flags diags,
    fold_left attributeStep attrs (flags, diags)
    = (flagsFrom flags attrs, diags ++ rejected attrs).
Proof.
  induction attrs as [|[attrName attrLoc] rest IH]; intros flags diags.
  - destruct flags as [d [] u p]; cbn; rewrite app_nil_r; reflexivity.
  - cbn [fold_left attributeStep].
    assert (Hflags : forall f g : Flags,
              hasDynamicLifetime f = hasDynamicLifetime g ->
              hasReflection f = hasReflection g ->
              usesMoveableValueDebugInfo f = usesMoveableValueDebugInfo g ->
              hasPointerEscape f = hasPointerEscape g -> f = g).
    { intros [] []; cbn; intros; subst; reflexivity. }
    destruct (String.eqb_spec attrName "dynamic_lifetime") as [->|H1];
      [|destruct (String.eqb_spec attrName "reflection") as [->|H2];
        [|destruct (String.eqb_spec attrName "moveable_value_debuginfo")
            as [->|H3];
          [|destruct (String.eqb_spec attrName "pointer_escape") as [->|H4]]]];
      rewrite IH; unfold rejected, accepted, flagsFrom, occurs;
      cbn [filter map existsb fst snd];
      repeat match goal with
             | |- context [String.eqb ?a ?b] =>
                 first [ is_var a; destruct (String.eqb_spec a b);
                         [congruence|]
                       | let v := eval vm_compute in (String.eqb a b) in
                         change (String.eqb a b) with v ]
             end;
      cbn [orb negb map app]; rewrite <- ?app_assoc;
      f_equal; try reflexivity; apply Hflags;
      cbn [hasDynamicLifetime hasReflection usesMoveableValueDebugInfo
           hasPointerEscape orb];
      rewrite ?orb_true_r;
      repeat match goal with
             | |- context [if ?b then _ else _] => destruct b
             end;
      reflexivity.
Qed.

(** X20. The flags the loop leaves depend only on which attribute names
    occur, not on their order or number: each flag is set exactly when its
    attribute occurs among those parsed, whatever else was parsed, and after
    the type a move-only type sets [usesMoveableValueDebugInfo] as well. *)
Theorem parseAttributes_flags
    (attrs : list (string * SourceLoc)) (diags : list AttributeDiagnostic)
    (isMoveOnly : bool) :
  afterType (fst (parseAttributes attrs diags)) isMoveOnly =
    {| hasDynamicLifetime :=
         if occurs "dynamic_lifetime" attrs then HasDynamicLifetime
         else DoesNotHaveDynamicLifetime;
       hasReflection := occurs "reflection" attrs;
       usesMoveableValueDebugInfo :=
         if occurs "moveable_value_debuginfo" attrs || isMoveOnly
         then UsesMoveableValueDebugInfo
         else DoesNotUseMoveableValueDebugInfo;
       hasPointerEscape :=
         if occurs "pointer_escape" attrs then HasPointerEscape
         else DoesNotHavePointerEscape |}.
Proof.
  unfold parseAttributes. rewrite fold_attributeStep.
  unfold afterType, flagsFrom, initialFlags. cbn [fst hasDynamicLifetime
    hasReflection usesMoveableValueDebugInfo hasPointerEscape orb].
  destruct isMoveOnly; [rewrite orb_true_r; reflexivity|].
  rewrite orb_false_r. destruct (occurs "moveable_value_debuginfo" attrs);
    reflexivity.
Qed.

(** X21. The loop diagnoses exactly the attributes whose name is none of
    dynamic_lifetime, reflection, moveable_value_debuginfo and
    pointer_escape: one [sil_invalid_attribute_for_expected] for each, in
    order, at the location of the attribute, added after the diagnostics
    there were. The name usesMoveableValueDebugInfo, which the text of the
    diagnostic offers, is one of the names the loop diagnoses. *)
Theorem parseAttributes_diagnostics
    (attrs : list (string * SourceLoc)) (diags : list AttributeDiagnostic) :
  snd (parseAttributes attrs diags) =
    diags ++
    map (fun attr => {| attrDiagLoc := snd attr; invalidAttribute := fst attr;
                        expected := expectedAttributes |})
        (filter (fun attr =>
                   negb (String.eqb (fst attr) "dynamic_lifetime"
                         || String.eqb (fst attr) "reflection"
                         || String.eqb (fst attr) "moveable_value_debuginfo"
                         || String.eqb (fst attr) "pointer_escape"))
                attrs)
  /\ forall loc,
       snd (parseAttributes [("usesMoveableValueDebugInfo", loc)] diags) =
         diags ++ [ {| attrDiagLoc := loc;
                       invalidAttribute := "usesMoveableValueDebugInfo";
                       expected := expectedAttributes |} ].
Proof.
  split.
  - unfold parseAttributes. rewrite fold_attributeStep. reflexivity.
  - intros loc. reflexivity.
Qed.
End AllocBoxFacts.

(** * The further properties on the sample instances *)

Module MoreSampleFacts.
Import Sample SampleMore.

Lemma derive_registers_what_it_returns_witness :
  exists c s',
    deriveConformanceForInvertible Box Copyable initial = Returned (Some c) s'
    /\ confSourceKind c = Synthesized
    /\ confImplying c = None
    /\ Conformances s' = [(3, (c, true))].
Proof.
  eexists; eexists. split; [vm_compute; reflexivity|].
  apply (derive_registers_what_it_returns Box initial).
  vm_compute; reflexivity.
Defined.

Lemma derive_unconditional_rows_witness :
  InverseMarking.getKind (getInverse (getNoncopyableMarking Pinned))
    = InverseMarking.Kind.Inferred
  /\ exists c s',
       deriveConformanceForInvertible Pinned Copyable initial
         = Returned (Some c) s'
       /\ confDeclContext c = DC_Nominal 12
       /\ Extensions s' = []
       /\ TopLevelDecls s' = []
       /\ ExtendedTypeCache s' = []
       /\ NextDeclID s' = 1000.
Proof.
  split; [reflexivity|].
  apply (derive_unconditional_rows SampleFacts.arena_respects_context Pinned initial).
  left; reflexivity.
Defined.

Lemma derive_conditional_row_binds_the_extension_witness :
  exists c ext s',
    deriveConformanceForInvertible Pair Copyable initial = Returned (Some c) s'
    /\ extID ext = 1000
    /\ NextDeclID s' = 1001
    /\ extLoc ext = None
    /\ extParent ext = DC_Module 0
    /\ Extensions s' = [(9, ext)]
    /\ ExtendedTypeCache s' = [(extID ext, TNominal 9)]
    /\ TopLevelDecls s' = []
    /\ Diags s' = [].
Proof.
  apply (derive_conditional_row_binds_the_extension Pair initial); reflexivity.
Defined.

Lemma derive_keeps_extension_identities_distinct_witness :
  let s1 := finalState (deriveConformanceForInvertible Box Copyable initial) in
  let s2 := finalState (deriveConformanceForInvertible Box Copyable s1) in
  extensionIDs s1 = [1000]
  /\ extensionsAllocated s2 /\ NoDup (extensionIDs s2).
Proof.
  cbv zeta. split; [reflexivity|].
  apply (derive_keeps_extension_identities_distinct Box
           (s := finalState (deriveConformanceForInvertible Box Copyable initial))).
  - repeat constructor.
  - repeat constructor. intros [].
Defined.

Lemma tryEmitContainmentFixits_on_archetype_witness :
  exists s',
    tryEmitContainmentFixits Box (TArchetype 0) Copyable initial = Returned tt s'
    /\ onlyDiagnosed initial s'
         [ addInverseDiagnostic Box Copyable;
           {| diagLoc := Some 200;
              diagID := note_inverse_preventing_conformance (TArchetype 0)
                          "Copyable";
              diagFixIts := [] |} ].
Proof.
  exact (tryEmitContainmentFixits_on_archetype Box (TArchetype 0) Copyable
           (genericArchetype := {| getInterfaceType := TGenericParam 0 |})
           initial eq_refl).
Defined.

Lemma tryEmitContainmentFixits_explains_the_marking_witness :
  exists s',
    tryEmitContainmentFixits Holder (TNominal 2) Copyable initial = Returned tt s'
    /\ onlyDiagnosed initial s'
         [ addInverseDiagnostic Holder Copyable;
           {| diagLoc := Some 27;
              diagID := note_inverse_preventing_conformance_explicit 2 "Copyable";
              diagFixIts := [] |} ].
Proof.
  apply (tryEmitContainmentFixits_explains_the_marking Holder (TNominal 2)
           (nominal := Token) initial); try reflexivity.
  discriminate.
Defined.

Lemma tryEmitContainmentFixits_without_a_located_nominal_witness :
  exists s',
    tryEmitContainmentFixits Holder TError Copyable initial = Returned tt s'
    /\ onlyDiagnosed initial s' [addInverseDiagnostic Holder Copyable].
Proof.
  apply (tryEmitContainmentFixits_without_a_located_nominal Holder
           TError (kp := Copyable) initial); [reflexivity|].
  right; left; reflexivity.
Defined.

Lemma checkCopyableConformance_reports_the_first_offender_witness :
  let run := checkCopyableConformance (AST := extended) (conformanceOf Vault) start in
  let token := field "token" 134 (TNominal 2) in
  (forall b s', run = Returned b s' -> b = false)
  /\ ((exists msg s', run = Fatal msg s')
      <-> unexplainedOffender (AST := extended) (TNominal 2))
  /\ exists notes,
       List.length notes <= 1
       /\ onlyDiagnosed (AST := extended) start (finalState run)
            (memberDiagnostic Vault (VD_Var token) (TNominal 2)
               :: addInverseDiagnostic Vault Copyable :: notes).
Proof.
  exact (checkCopyableConformance_reports_the_first_offender (AST := extended)
           (conformanceOf Vault) (nom := Vault) start
           eq_refl eq_refl eq_refl eq_refl).
Defined.

Lemma IsNoncopyableRequest_pack_expansion_as_its_pattern_witness :
  IsNoncopyableRequest_evaluate (Q := SampleQueries.queries)
    (SampleQueries.QPack (SampleQueries.QNominal 2)) tt
  = IsNoncopyableRequest_evaluate (Q := SampleQueries.queries)
      (SampleQueries.QNominal 2) tt
  /\ IsNoncopyableRequest_evaluate (Q := SampleQueries.queries)
       (SampleQueries.QNominal 2) tt = Returned true tt.
Proof.
  split; [|reflexivity].
  exact (IsNoncopyableRequest_pack_expansion_as_its_pattern
           (Q := SampleQueries.queries)
           (SampleQueries.QPack (SampleQueries.QNominal 2))
           (pet := {| getPatternType := SampleQueries.QNominal 2 |}) tt
           eq_refl eq_refl eq_refl eq_refl).
Defined.
End MoreSampleFacts.
